(** * Movie Recommendation Engine: the tool, the registry and the agent loop

    A shallow embedding of [main.py]: the mock metadata tool
    [fetch_movie_metadata], the registry [available_tools], the session state
    kept in [st.session_state], the body of the [while True] loop and the loop
    itself, followed by the properties of the orchestration that the
    specification states.

    Python values are embedded as follows.
    - A [str] is the list of its Unicode code points ([pystr]).  String
      literals of the source are written with [lit] (ASCII text) and explicit
      code points for the pictographs.
    - [Optional[str]] is [option pystr]; the f-string rendering of [None] is
      the text [None].
    - Dictionaries whose iteration order is observable are association lists
      in insertion order.
    - An uncaught exception is an explicit outcome ([Raise]); the session
      state survives it, because [st.session_state] is mutated in place. *)

From Stdlib Require Import List NArith ZArith Bool Ascii String Lia.
From Stdlib Require Import DecimalString.
Import ListNotations.

Set Warnings "-register-all".

Local Open Scope N_scope.
Local Open Scope list_scope.

(** ** Python strings *)

Definition pystr := list N.

(** An ASCII literal of the source, one code point per character. *)
Definition lit (s : string) : pystr :=
  List.map N_of_ascii (list_ascii_of_string s).

Fixpoint str_eqb (a b : pystr) : bool :=
  match a, b with
  | [], [] => true
  | x :: a', y :: b' => (x =? y) && str_eqb a' b'
  | _, _ => false
  end.

(** [s.startswith(p)] *)
Fixpoint startswith (p s : pystr) : bool :=
  match p, s with
  | [], _ => true
  | _ :: _, [] => false
  | x :: p', y :: s' => (x =? y) && startswith p' s'
  end.

(** [needle in hay] on two strings: substring test. *)
Fixpoint str_in (needle hay : pystr) : bool :=
  startswith needle hay ||
  match hay with
  | [] => false
  | _ :: hay' => str_in needle hay'
  end.

(** [str.isspace] on one code point: the code points whose bidirectional
    class is WS, B or S, or whose category is Zs. *)
Definition isspace (c : N) : bool :=
  ((9 <=? c) && (c <=? 13)) || ((28 <=? c) && (c <=? 32)) ||
  (c =? 133) || (c =? 160) || (c =? 5760) ||
  ((8192 <=? c) && (c <=? 8202)) || (c =? 8232) || (c =? 8233) ||
  (c =? 8239) || (c =? 8287) || (c =? 12288).

Fixpoint lstrip (s : pystr) : pystr :=
  match s with
  | [] => []
  | c :: s' => if isspace c then lstrip s' else s
  end.

Definition rstrip (s : pystr) : pystr := rev (lstrip (rev s)).

(** [s.strip()] *)
Definition strip (s : pystr) : pystr := rstrip (lstrip s).

(** [str.lower] restricted to what it does on ASCII text: the letters A to Z
    move to a to z and nothing else changes.  On a string of ASCII code
    points this is exactly [str.lower]. *)
Definition ascii_lower (s : pystr) : pystr :=
  List.map (fun c => if (65 <=? c) && (c <=? 90) then c + 32 else c) s.

(** The rendering of an [Optional[str]] inside an f-string. *)
Definition fmt (o : option pystr) : pystr :=
  match o with
  | None => lit "None"
  | Some s => s
  end.

(** ** Python values that reach [json.dumps] *)

(** A [float] is kept as the decimal literal the source writes it with: all
    of them have one fractional digit, so [PyFloat 83] is [8.3]. *)
Inductive pyval : Type :=
| PyNone
| PyStr (s : pystr)
| PyInt (z : Z)
| PyFloat (tenths : Z)
| PyList (l : list pyval)
| PyDict (d : list (pystr * pyval)).

Definition hexdigit (d : N) : N :=
  if d <? 10 then 48 + d else 87 + d.

(** ['{0:04x}'.format(n)] for [n < 0x10000] *)
Definition hex4 (n : N) : pystr :=
  [hexdigit (N.shiftr n 12 mod 16); hexdigit (N.shiftr n 8 mod 16);
   hexdigit (N.shiftr n 4 mod 16); hexdigit (n mod 16)].

Definition uescape (n : N) : pystr := lit "\u" ++ hex4 n.

(** The replacement [json.encoder.py_encode_basestring_ascii] makes for one
    code point. *)
Definition escape_char (c : N) : pystr :=
  if c =? 34 then lit "\" ++ [34]
  else if c =? 92 then lit "\\"
  else if c =? 10 then lit "\n"
  else if c =? 13 then lit "\r"
  else if c =? 9 then lit "\t"
  else if c =? 8 then lit "\b"
  else if c =? 12 then lit "\f"
  else if (32 <=? c) && (c <=? 126) then [c]
  else if c <? 65536 then uescape c
  else
    let n := c - 65536 in
    uescape (N.lor 55296 (N.land (N.shiftr n 10) 1023)) ++
    uescape (N.lor 56320 (N.land n 1023)).

Definition encode_str (s : pystr) : pystr :=
  [34] ++ List.flat_map escape_char s ++ [34].

Definition repr_nat (n : N) : pystr :=
  lit (NilZero.string_of_uint (N.to_uint n)).

(** [int.__repr__] *)
Definition repr_int (z : Z) : pystr :=
  if (z <? 0)%Z then lit "-" ++ repr_nat (Z.abs_N z) else repr_nat (Z.abs_N z).

(** [float.__repr__] of a literal with one fractional digit. *)
Definition repr_float (tenths : Z) : pystr :=
  let a := Z.abs_N tenths in
  (if (tenths <? 0)%Z then lit "-" else []) ++
  repr_nat (a / 10) ++ lit "." ++ repr_nat (a mod 10).

(** [sep.join(parts)] *)
Fixpoint join (sep : pystr) (parts : list pystr) : pystr :=
  match parts with
  | [] => []
  | [p] => p
  | p :: rest => p ++ sep ++ join sep rest
  end.

(** [json.dumps(v)] with its defaults: [ensure_ascii=True] and the
    separators [", "] and [": "]. *)
Fixpoint json_dumps (v : pyval) : pystr :=
  match v with
  | PyNone => lit "null"
  | PyStr s => encode_str s
  | PyInt z => repr_int z
  | PyFloat t => repr_float t
  | PyList l => lit "[" ++ join (lit ", ") (List.map json_dumps l) ++ lit "]"
  | PyDict d =>
      lit "{" ++
      join (lit ", ")
        (List.map (fun kv => match kv with
                             | (k, x) => encode_str k ++ lit ": " ++ json_dumps x
                             end) d) ++
      lit "}"
  end.

(** ** Dictionaries *)

Section Dict.
Context {V : Type}.

(** [d.get(k)] *)
Fixpoint dict_get (d : list (pystr * V)) (k : pystr) : option V :=
  match d with
  | [] => None
  | (k', v) :: d' => if str_eqb k' k then Some v else dict_get d' k
  end.

(** [k in d] for a key that may be [None]: [None] is hashable and is not a
    key of a dictionary keyed by strings. *)
Definition dict_has (d : list (pystr * V)) (k : option pystr) : bool :=
  match k with
  | None => false
  | Some k => match dict_get d k with Some _ => true | None => false end
  end.
End Dict.

(** ** The mock metadata tool *)

Inductive exn : Type :=
| AttributeError
| KeyError.

(** The result of a call: a value, or an exception that nothing catches. *)
Inductive result (A : Type) : Type :=
| Return (a : A)
| Raise (e : exn).

Arguments Return {A} a.
Arguments Raise {A} e.

(** One entry of the table; the rating is given in tenths. *)
Definition movie (title genre : string) (imdb_rating runtime_mins : Z) : pyval :=
  PyDict [(lit "title", PyStr (lit title)); (lit "genre", PyStr (lit genre));
          (lit "imdb_rating", PyFloat imdb_rating);
          (lit "runtime_mins", PyInt runtime_mins)].

(** The dictionary literal of the tool, in insertion order. *)
Definition mock_movies : list (pystr * list pyval) :=
  [(lit "sci-fi",
    [movie "Space Odyssey 2001" "Sci-Fi/Drama" 83 149;
     movie "Robot Detective" "Sci-Fi/Thriller" 75 115;
     movie "The Infinite Loop" "Sci-Fi/Mystery" 91 180]);
   (lit "action",
    [movie "The Fast Getaway" "Action/Thriller" 78 95;
     movie "Mountain Commandos" "Action/War" 80 122]);
   (lit "comedy",
    [movie "The Office Party" "Comedy/Slice of Life" 69 88;
     movie "Wacky Neighbors" "Comedy/Slapstick" 72 105])].

(** Truth value of an [Optional[List]]: [None] and the empty list are false. *)
Definition truthy {A : Type} (movies : option (list A)) : bool :=
  match movies with
  | Some (_ :: _) => true
  | _ => false
  end.

(** The [for key, value in mock_movies.items()] scan with its [break]: the
    value of the first key that passes the test, if any. *)
Fixpoint broaden (keyword preference_keyword : pystr)
    (items : list (pystr * list pyval)) : option (list pyval) :=
  match items with
  | [] => None
  | (key, value) :: items' =>
      if str_in key keyword || str_in preference_keyword key
      then Some value
      else broaden keyword preference_keyword items'
  end.

(** The text returned when nothing matches: a warning sign (U+26A0, U+FE0F)
    and the keyword as it was passed in. *)
Definition not_found (preference_keyword : pystr) : pystr :=
  [9888; 65039] ++ lit " Could not find movies matching: " ++
  preference_keyword ++ lit ". Try 'sci-fi', 'action', or 'comedy'.".

Section Tool.
(** [str.lower].  Its case table is part of the Python runtime, not of the
    program; everything below holds for whatever function it is.
    [ascii_lower] is its value on ASCII text. *)
Variable lower : pystr -> pystr.

(** The value of [movies] when the final [if movies:] is reached, for a
    [preference_keyword] that is a string. *)
Definition found (preference_keyword : pystr) : option (list pyval) :=
  let keyword := strip (lower preference_keyword) in
  let movies := dict_get mock_movies keyword in
  if negb (truthy movies)
  then match broaden keyword preference_keyword mock_movies with
       | Some value => Some value
       | None => movies
       end
  else movies.

(** The body of [fetch_movie_metadata] once [preference_keyword] is known
    to be a string. *)
Definition fetch_str (preference_keyword : pystr) : pystr :=
  match found preference_keyword with
  | Some (m :: ms) => json_dumps (PyList (m :: ms))
  | _ => not_found preference_keyword
  end.

(** [fetch_movie_metadata(preference_keyword)].  The first thing it does is
    [preference_keyword.lower()], which raises [AttributeError] on
    [None]. *)
Definition fetch_movie_metadata (preference_keyword : option pystr)
  : result pystr :=
  match preference_keyword with
  | None => Raise AttributeError
  | Some k => Return (fetch_str k)
  end.

(** The registry: two names for the one tool. *)
Definition available_tools : list (pystr * (option pystr -> result pystr)) :=
  [(lit "fetch_movie_metadata", fetch_movie_metadata);
   (lit "get_movie_data", fetch_movie_metadata)].
End Tool.

(** ** The schema of one model turn *)

Module MyOutputFormat.
Record t : Type := Build {
  step : pystr;
  content : option pystr;
  tool : option pystr;
  input : option pystr
}.
End MyOutputFormat.

(** ** Session state *)

(** One entry of the transcript, a dictionary with the keys [role] and
    [content]. *)
Record message : Type := {
  role : pystr;
  content : pystr
}.

(** [st.session_state]: the transcript sent to the model and the history
    that is displayed. *)
Record session_state : Type := {
  messages : list message;
  chat_history : list (pystr * pystr)
}.

(** [SYSTEM_PROMPT], line by line; the literal starts and ends with a line
    break. *)
Definition SYSTEM_PROMPT : pystr :=
  join [10] (List.map lit
    ([EmptyString;
     "You are the **Movie Recommendation Engine (MRE)**. Your core function is to provide highly curated and justified movie suggestions based on user preferences (genre, runtime, rating, etc.). You **must** utilize the Chain-of-Thought (CoT) reasoning pattern for every response, regardless of the complexity of the user's query.";
     EmptyString;
     "### 1. Chain-of-Thought (CoT) Requirement";
     "**STRICT RULE:** Your output must begin with an invisible **THOUGHT** block where you detail your step-by-step analysis. Do not show this THOUGHT block to the user.";
     EmptyString;
     "**The CoT Process MUST include:**";
     "1.  **Data Ingestion:** Identify the user's primary preferences (e.g., 'sci-fi', 'short runtime', 'high rating').";
     "2.  **Tool Execution Planning:** Plan to use the `fetch_movie_metadata` tool with the primary preference keyword.";
     "3.  **Source Cross-Verification:** Mentally synthesize the list of movies received from the tool. Filter and categorize them by the user's explicit constraints (e.g., must be over an 8.0 rating, less than 120 minutes runtime).";
     "4.  **Contextual Interpretation:** Select the absolute best recommendation, highlighting *why* it is the best fit based on the user's input and the analyzed metrics (rating, runtime, genre fit).";
     "5.  **Final Synthesis:** Construct the final, clear, and direct Movie Recommendation statement based *only* on the conclusion of the analysis.";
     EmptyString;
     "### 2. Output Format";
     "Your final, user-facing output **must** be clear and structured, beginning with the **Recommendation Summary** and concluding with the **Justification** based on your CoT process.";
     EmptyString;
     "**Required User-Facing Format:**";
     "1.  **Summary Greeting:** A concise, enthusiastic greeting relevant to the user's taste.";
     "2.  **Top Recommendation:** State the **Top Recommendation**, including Title and Primary Genre.";
     "3.  **Key Metrics:** List the key metrics (e.g., IMDb Rating, Runtime).";
     "4.  **---** (Horizontal Rule)";
     "5.  **Recommendation Justification:** A brief, compelling explanation (1-2 sentences) of *why* this movie was selected based on the analyzed data and user preferences.";
     EmptyString;
     "### 3. Constraints";
     "* **Focus on Quality:** Prioritize high-rated and well-fitting options.";
     "* **Avoid Spoilers:** Only provide metadata and fit assessment, not plot details.";
     "* **Use Standard Film Terminology:** Use clear terms like 'runtime', 'rating', and 'genre'.";
     EmptyString]%string)).

Definition system_message : message :=
  {| role := lit "system"; content := SYSTEM_PROMPT |}.

(** The handler of the button that clears the conversation: both fields are
    assigned afresh, then the script is rerun (which finds both keys present
    and leaves them alone). *)
Definition clear (st : session_state) : session_state :=
  {| messages := [system_message]; chat_history := [] |}.

Definition append_message (st : session_state) (m : message) : session_state :=
  {| messages := messages st ++ [m]; chat_history := chat_history st |}.

Definition append_history (st : session_state) (e : pystr * pystr)
  : session_state :=
  {| messages := messages st; chat_history := chat_history st ++ [e] |}.

(** ** The agent loop *)

(** What one reply of [client.chat.completions.parse] carries:
    [message.content] and [message.parsed], a string and a record as their
    annotations in the loop say. *)
Record response : Type := {
  raw_result : pystr;
  parsed : MyOutputFormat.t
}.

(** What the loop does to the outside: it asks the model with a transcript,
    and it calls a registered tool with an argument. *)
Inductive event : Type :=
| ModelCall (transcript : list message)
| ToolCall (name : option pystr) (arg : option pystr).

(** How one pass through the body of the loop ends: at a [continue] (or at
    the end of the body), at the [break], or in an exception.  Each carries
    the session state as the pass left it. *)
Inductive outcome : Type :=
| Continue (st : session_state)
| Break (st : session_state)
| Abort (e : exn) (st : session_state).

Definition state_of (o : outcome) : session_state :=
  match o with
  | Continue st | Break st | Abort _ st => st
  end.

Definition json_opt (o : option pystr) : pyval :=
  match o with
  | None => PyNone
  | Some s => PyStr s
  end.

(** The message that carries a tool result back to the model. *)
Definition observation (tool_name tool_input : option pystr)
    (tool_response : pystr) : message :=
  {| role := lit "developer";
     content := json_dumps
       (PyDict [(lit "step", PyStr (lit "OBSERVE"));
                (lit "tool", json_opt tool_name);
                (lit "input", json_opt tool_input);
                (lit "output", PyStr tool_response)]) |}.

(** [f"Error: Tool {tool_name} not found."] *)
Definition tool_not_found (tool_name : option pystr) : pystr :=
  lit "Error: Tool " ++ fmt tool_name ++ lit " not found.".

Section Loop.
Variable lower : pystr -> pystr.

(** [d[k]] on the registry. *)
Definition tool_item (k : option pystr)
  : result (option pystr -> result pystr) :=
  match k with
  | None => Raise KeyError
  | Some k => match dict_get (available_tools lower) k with
              | Some f => Return f
              | None => Raise KeyError
              end
  end.

(** The [if tool_name in available_tools: ... else: ...] of the TOOL
    branch. *)
Definition dispatch (tool_name tool_input : option pystr) : result pystr :=
  if dict_has (available_tools lower) tool_name
  then match tool_item tool_name with
       | Return f => f tool_input
       | Raise e => Raise e
       end
  else Return (tool_not_found tool_name).

(** One pass through the body of [while True], from the reply of the model
    on. *)
Definition iteration (st : session_state) (response : response)
  : list event * outcome :=
  let raw_result := raw_result response in
  let st := append_message st
              {| role := lit "assistant"; content := raw_result |} in
  let parsed := parsed response in
  if str_eqb (MyOutputFormat.step parsed) (lit "START") then
    ([], Continue (append_history st
           (lit "assistant",
            [128293] ++ lit " MRE Initialized: " ++
            fmt (MyOutputFormat.content parsed))))
  else if str_eqb (MyOutputFormat.step parsed) (lit "PLAN") then
    ([], Continue (append_history st
           (lit "assistant",
            [129504] ++ lit " Planning: " ++
            fmt (MyOutputFormat.content parsed))))
  else if str_eqb (MyOutputFormat.step parsed) (lit "TOOL") then
    let tool_name := MyOutputFormat.tool parsed in
    let tool_input := MyOutputFormat.input parsed in
    let st := append_history st
                (lit "assistant",
                 [128736; 65039] ++ lit " Fetching data using keyword: " ++
                 fmt tool_input) in
    let called :=
      if dict_has (available_tools lower) tool_name
      then [ToolCall tool_name tool_input] else [] in
    match dispatch tool_name tool_input with
    | Return tool_response =>
        (called,
         Continue (append_message st
                     (observation tool_name tool_input tool_response)))
    | Raise e => (called, Abort e st)
    end
  else if str_eqb (MyOutputFormat.step parsed) (lit "OUTPUT") then
    ([], Break (append_history st
           (lit "assistant",
            [129302] ++ lit " **MRE Recommendation:** " ++
            fmt (MyOutputFormat.content parsed))))
  else ([], Continue st).

(** The model: whatever [client.chat.completions.parse] answers to a
    transcript. *)
Variable model : list message -> response.

(** Where a run of the loop stands: it left through the [break], an
    exception ended it, or it is still going when the fuel is spent. *)
Inductive run : Type :=
| Done (st : session_state)
| Failed (e : exn) (st : session_state)
| Running (st : session_state).

(** [while True: ...], unfolded at most [fuel] times, with the events of
    the run in order. *)
Fixpoint agent_loop (fuel : nat) (st : session_state) : list event * run :=
  match fuel with
  | O => ([], Running st)
  | S fuel' =>
      let call := ModelCall (messages st) in
      match iteration st (model (messages st)) with
      | (evs, Continue st') =>
          let (rest, r) := agent_loop fuel' st' in
          (call :: evs ++ rest, r)
      | (evs, Break st') => (call :: evs, Done st')
      | (evs, Abort e st') => (call :: evs, Failed e st')
      end
  end.

(** The [if user_query:] block: the query joins the transcript and the
    history, then the loop runs.  [None] and the empty string are false, and
    then the block is skipped. *)
Definition user_turn (fuel : nat) (st : session_state)
    (user_query : option pystr) : list event * run :=
  match user_query with
  | Some (c :: q) =>
      let user_query := c :: q in
      let st := append_message st
                  {| role := lit "user"; content := user_query |} in
      let st := append_history st (lit "user", user_query) in
      agent_loop fuel st
  | _ => ([], Done st)
  end.
End Loop.

(** * Properties *)

(** ** Strings *)

Lemma str_eqb_eq (a b : pystr) : str_eqb a b = true <-> a = b.
Proof.
  revert b; induction a as [|x a IH]; intros [|y b]; simpl;
    try (split; [discriminate | congruence]); [tauto|].
  rewrite andb_true_iff, N.eqb_eq, IH.
  split; [intros [-> ->]; reflexivity | intros H; inversion H; auto].
Qed.

Lemma str_eqb_refl (a : pystr) : str_eqb a a = true.
Proof. apply str_eqb_eq; reflexivity. Qed.

Lemma str_eqb_neq (a b : pystr) : str_eqb a b = false <-> a <> b.
Proof.
  rewrite <- str_eqb_eq. destruct (str_eqb a b); split; congruence.
Qed.

Lemma startswith_app (p s : pystr) : startswith p (p ++ s) = true.
Proof.
  induction p as [|x p IH]; simpl; [reflexivity|].
  rewrite N.eqb_refl; exact IH.
Qed.

Lemma str_in_app_r (needle a s : pystr) :
  str_in needle s = true -> str_in needle (a ++ s) = true.
Proof.
  intros H; induction a as [|x a IH]; simpl; [exact H|].
  rewrite IH; apply orb_true_r.
Qed.

(** A string occurs in whatever is written around it. *)
Lemma str_in_middle (a needle b : pystr) :
  str_in needle (a ++ needle ++ b) = true.
Proof.
  apply str_in_app_r.
  destruct (needle ++ b) eqn:E; simpl;
    rewrite <- E, startswith_app; reflexivity.
Qed.

(** ** The body of the loop, case by case *)

Definition assistant (r : response) : message :=
  {| role := lit "assistant"; content := raw_result r |}.

Definition step_of (r : response) : pystr := MyOutputFormat.step (parsed r).

(** The history entry of each branch. *)
Definition shown_start (r : response) : pystr * pystr :=
  (lit "assistant",
   [128293] ++ lit " MRE Initialized: " ++ fmt (MyOutputFormat.content (parsed r))).

Definition shown_plan (r : response) : pystr * pystr :=
  (lit "assistant",
   [129504] ++ lit " Planning: " ++ fmt (MyOutputFormat.content (parsed r))).

Definition shown_tool (r : response) : pystr * pystr :=
  (lit "assistant",
   [128736; 65039] ++ lit " Fetching data using keyword: " ++
   fmt (MyOutputFormat.input (parsed r))).

Definition shown_output (r : response) : pystr * pystr :=
  (lit "assistant",
   [129302] ++ lit " **MRE Recommendation:** " ++
   fmt (MyOutputFormat.content (parsed r))).

Section Cases.
Variable lower : pystr -> pystr.
Variables (st : session_state) (r : response).

Lemma iteration_start :
  step_of r = lit "START" ->
  iteration lower st r =
  ([], Continue (append_history (append_message st (assistant r)) (shown_start r))).
Proof.
  unfold step_of, iteration; intros ->; reflexivity.
Qed.

Lemma iteration_plan :
  step_of r = lit "PLAN" ->
  iteration lower st r =
  ([], Continue (append_history (append_message st (assistant r)) (shown_plan r))).
Proof.
  unfold step_of, iteration; intros ->; reflexivity.
Qed.

Lemma iteration_output :
  step_of r = lit "OUTPUT" ->
  iteration lower st r =
  ([], Break (append_history (append_message st (assistant r)) (shown_output r))).
Proof.
  unfold step_of, iteration; intros ->; reflexivity.
Qed.

Lemma iteration_tool :
  step_of r = lit "TOOL" ->
  let tool_name := MyOutputFormat.tool (parsed r) in
  let tool_input := MyOutputFormat.input (parsed r) in
  let st1 := append_history (append_message st (assistant r)) (shown_tool r) in
  let called := if dict_has (available_tools lower) tool_name
                then [ToolCall tool_name tool_input] else [] in
  iteration lower st r =
  match dispatch lower tool_name tool_input with
  | Return tool_response =>
      (called,
       Continue (append_message st1
                   (observation tool_name tool_input tool_response)))
  | Raise e => (called, Abort e st1)
  end.
Proof.
  unfold step_of, iteration; intros ->; reflexivity.
Qed.

Lemma iteration_other :
  step_of r <> lit "START" -> step_of r <> lit "PLAN" ->
  step_of r <> lit "TOOL" -> step_of r <> lit "OUTPUT" ->
  iteration lower st r = ([], Continue (append_message st (assistant r))).
Proof.
  unfold step_of, iteration; intros H1 H2 H3 H4.
  apply str_eqb_neq in H1, H2, H3, H4.
  rewrite H1, H2, H3, H4; reflexivity.
Qed.
End Cases.

(** ** The registry *)

Section Registry.
Variable lower : pystr -> pystr.

Definition registered (name : option pystr) : bool :=
  dict_has (available_tools lower) name.

Lemma registered_names (name : option pystr) :
  registered name = true <->
  name = Some (lit "fetch_movie_metadata") \/ name = Some (lit "get_movie_data").
Proof.
  unfold registered, dict_has, available_tools;
    destruct name as [k|]; cbn [dict_get].
  - destruct (str_eqb (lit "fetch_movie_metadata") k) eqn:E1;
      [apply str_eqb_eq in E1; subst; tauto|].
    destruct (str_eqb (lit "get_movie_data") k) eqn:E2;
      [apply str_eqb_eq in E2; subst; tauto|].
    apply str_eqb_neq in E1, E2.
    split; [intros H; discriminate H | intros [H|H]; inversion H; congruence].
  - split; [intros H; discriminate H | intros [H|H]; discriminate H].
Qed.

(** Both names run the one tool. *)
Lemma dispatch_registered (name arg : option pystr) :
  registered name = true ->
  dispatch lower name arg = fetch_movie_metadata lower arg.
Proof.
  intros H; unfold dispatch; fold (registered name); rewrite H.
  apply registered_names in H; destruct H as [-> | ->]; reflexivity.
Qed.

Lemma dispatch_unregistered (name arg : option pystr) :
  registered name = false ->
  dispatch lower name arg = Return (tool_not_found name).
Proof.
  intros H; unfold dispatch; fold (registered name); rewrite H; reflexivity.
Qed.
End Registry.

(** ** The loop, one unfolding at a time *)

Section Unfold.
Variable lower : pystr -> pystr.
Variable model : list message -> response.

Lemma agent_loop_continue (n : nat) (st st' : session_state) (evs : list event) :
  iteration lower st (model (messages st)) = (evs, Continue st') ->
  agent_loop lower model (S n) st =
  (ModelCall (messages st) :: evs ++ fst (agent_loop lower model n st'),
   snd (agent_loop lower model n st')).
Proof.
  intros H; simpl; rewrite H.
  destruct (agent_loop lower model n st'); reflexivity.
Qed.

Lemma agent_loop_break (n : nat) (st st' : session_state) (evs : list event) :
  iteration lower st (model (messages st)) = (evs, Break st') ->
  agent_loop lower model (S n) st = (ModelCall (messages st) :: evs, Done st').
Proof. intros H; simpl; rewrite H; reflexivity. Qed.

Lemma agent_loop_abort (n : nat) (st st' : session_state) (evs : list event)
    (e : exn) :
  iteration lower st (model (messages st)) = (evs, Abort e st') ->
  agent_loop lower model (S n) st = (ModelCall (messages st) :: evs, Failed e st').
Proof. intros H; simpl; rewrite H; reflexivity. Qed.

(** With fuel left, the first thing the loop does is ask the model with
    the transcript as it stands. *)
Lemma agent_loop_asks (n : nat) (st : session_state) :
  exists rest,
    fst (agent_loop lower model (S n) st) = ModelCall (messages st) :: rest.
Proof.
  simpl.
  destruct (iteration lower st (model (messages st))) as [evs [st'|st'|e st']];
    [destruct (agent_loop lower model n st')|..]; simpl; eauto.
Qed.
End Unfold.

(** ** Sample inputs *)

(** The reply of a model that answers with the given step: the raw text is
    the JSON form of the parsed record. *)
Definition reply (step : string) (content tool input : option pystr) : response :=
  {| raw_result := json_dumps
       (PyDict [(lit "step", PyStr (lit step)); (lit "content", json_opt content);
                (lit "tool", json_opt tool); (lit "input", json_opt input)]);
     parsed := MyOutputFormat.Build (lit step) content tool input |}.

(** The session as the first run of the script leaves it. *)
Definition fresh : session_state :=
  {| messages := [system_message]; chat_history := [] |}.

(** A session in the middle of a turn. *)
Definition asked : session_state :=
  append_history
    (append_message fresh
       {| role := lit "user";
          content := lit "Suggest a sci-fi movie under 150 minutes" |})
    (lit "user", lit "Suggest a sci-fi movie under 150 minutes").

(** ** Reset *)

(** C9. After the reset the transcript is the system seed message alone and
    the display history is empty, whatever the session held before. *)
Theorem clear_leaves_seed_only (st : session_state) :
  messages (clear st) = [system_message] /\
  List.length (messages (clear st)) = 1%nat /\
  role system_message = lit "system" /\
  content system_message = SYSTEM_PROMPT /\
  chat_history (clear st) = [] /\
  List.length (chat_history (clear st)) = 0%nat.
Proof. repeat split. Qed.

(** ** Steps of an unknown kind *)

(** C10. A step whose kind is none of START, PLAN, TOOL and OUTPUT adds the
    raw assistant message to the transcript and nothing else: no history
    entry, no tool call, no observation; the pass ends in a continue, so the
    loop goes on from the new state and asks the model again. *)
Theorem unknown_step_only_extends_transcript
    (lower : pystr -> pystr) (model : list message -> response)
    (st : session_state) (r : response) :
  step_of r <> lit "START" -> step_of r <> lit "PLAN" ->
  step_of r <> lit "TOOL" -> step_of r <> lit "OUTPUT" ->
  let st' := {| messages := messages st ++ [assistant r];
                chat_history := chat_history st |} in
  iteration lower st r = ([], Continue st') /\
  (model (messages st) = r ->
   forall n,
     agent_loop lower model (S n) st =
     (ModelCall (messages st) :: fst (agent_loop lower model n st'),
      snd (agent_loop lower model n st')) /\
     exists rest,
       fst (agent_loop lower model (S (S n)) st) =
       ModelCall (messages st) :: ModelCall (messages st ++ [assistant r]) :: rest).
Proof.
  intros H1 H2 H3 H4 st'.
  pose proof (iteration_other lower st r H1 H2 H3 H4) as Hit.
  split; [exact Hit|].
  intros Hm n.
  assert (Hc : forall k, agent_loop lower model (S k) st =
    (ModelCall (messages st) :: fst (agent_loop lower model k st'),
     snd (agent_loop lower model k st'))).
  { intros k.
    pose proof (agent_loop_continue lower model k st st' []) as Hk.
    rewrite Hm in Hk. rewrite (Hk Hit); reflexivity. }
  split; [apply Hc|].
  destruct (agent_loop_asks lower model n st') as [rest Hrest].
  exists rest. rewrite Hc; cbn [fst]. rewrite Hrest; reflexivity.
Qed.

Lemma unknown_step_only_extends_transcript_witness :
  let r := reply "OBSERVE" None None None in
  iteration ascii_lower asked r =
  ([], Continue {| messages := messages asked ++ [assistant r];
                   chat_history := chat_history asked |}).
Proof.
  intros r.
  apply (unknown_step_only_extends_transcript ascii_lower (fun _ => r) asked r);
    vm_compute; discriminate.
Defined.

(** ** How a pass through the body ends *)

Lemma step_cases (r : response) :
  step_of r = lit "START" \/ step_of r = lit "PLAN" \/ step_of r = lit "TOOL" \/
  step_of r = lit "OUTPUT" \/
  (step_of r <> lit "START" /\ step_of r <> lit "PLAN" /\
   step_of r <> lit "TOOL" /\ step_of r <> lit "OUTPUT").
Proof.
  destruct (str_eqb (step_of r) (lit "START")) eqn:E1;
    [apply str_eqb_eq in E1; tauto|].
  destruct (str_eqb (step_of r) (lit "PLAN")) eqn:E2;
    [apply str_eqb_eq in E2; tauto|].
  destruct (str_eqb (step_of r) (lit "TOOL")) eqn:E3;
    [apply str_eqb_eq in E3; tauto|].
  destruct (str_eqb (step_of r) (lit "OUTPUT")) eqn:E4;
    [apply str_eqb_eq in E4; tauto|].
  apply str_eqb_neq in E1, E2, E3, E4; tauto.
Qed.

(** The replies on which the tool call raises: a TOOL step that names a
    registered tool and carries no input. *)
Definition faulty (lower : pystr -> pystr) (r : response) : bool :=
  str_eqb (step_of r) (lit "TOOL") &&
  registered lower (MyOutputFormat.tool (parsed r)) &&
  match MyOutputFormat.input (parsed r) with
  | None => true
  | Some _ => false
  end.

Definition is_break (o : outcome) : bool :=
  match o with
  | Break _ => true
  | _ => false
  end.

(** The transcripts the model was asked with, in order. *)
Fixpoint transcripts (evs : list event) : list (list message) :=
  match evs with
  | [] => []
  | ModelCall t :: evs' => t :: transcripts evs'
  | ToolCall _ _ :: evs' => transcripts evs'
  end.

(** The replies the loop received in a run. *)
Definition replies (model : list message -> response) (evs : list event)
  : list response :=
  List.map model (transcripts evs).

Section Outcome.
Variable lower : pystr -> pystr.

Lemma faulty_tool (r : response) :
  step_of r = lit "TOOL" ->
  faulty lower r =
  registered lower (MyOutputFormat.tool (parsed r)) &&
  match MyOutputFormat.input (parsed r) with
  | None => true
  | Some _ => false
  end.
Proof. unfold faulty; intros ->; reflexivity. Qed.

Lemma faulty_not_tool (r : response) :
  step_of r <> lit "TOOL" -> faulty lower r = false.
Proof.
  unfold faulty; intros H; apply str_eqb_neq in H; rewrite H; reflexivity.
Qed.

(** The dispatch of a TOOL step raises exactly on the faulty replies, and
    then it is the [AttributeError] of the tool. *)
Lemma dispatch_result (r : response) :
  step_of r = lit "TOOL" ->
  match dispatch lower (MyOutputFormat.tool (parsed r))
                       (MyOutputFormat.input (parsed r)) with
  | Return _ => faulty lower r = false
  | Raise e => e = AttributeError /\ faulty lower r = true
  end.
Proof.
  intros H; rewrite (faulty_tool r H).
  destruct (registered lower (MyOutputFormat.tool (parsed r))) eqn:E.
  - rewrite (dispatch_registered lower _ _ E).
    destruct (MyOutputFormat.input (parsed r)); simpl; auto.
  - rewrite (dispatch_unregistered lower _ _ E); reflexivity.
Qed.

(** Which replies lead to which end of the pass. *)
Lemma iteration_outcome (st : session_state) (r : response) :
  match snd (iteration lower st r) with
  | Continue _ => step_of r <> lit "OUTPUT" /\ faulty lower r = false
  | Break _ => step_of r = lit "OUTPUT"
  | Abort e _ => e = AttributeError /\ faulty lower r = true
  end.
Proof.
  destruct (step_cases r) as [H|[H|[H|[H|(H1 & H2 & H3 & H4)]]]].
  - rewrite (iteration_start lower st r H); cbn [snd].
    split; [rewrite H; discriminate | apply faulty_not_tool; rewrite H; discriminate].
  - rewrite (iteration_plan lower st r H); cbn [snd].
    split; [rewrite H; discriminate | apply faulty_not_tool; rewrite H; discriminate].
  - rewrite (iteration_tool lower st r H); cbv zeta.
    pose proof (dispatch_result r H) as D.
    destruct (dispatch lower _ _); cbn [snd]; [|exact D].
    split; [rewrite H; discriminate | exact D].
  - rewrite (iteration_output lower st r H); exact H.
  - rewrite (iteration_other lower st r H1 H2 H3 H4); cbn [snd].
    split; [exact H4 | apply faulty_not_tool; exact H3].
Qed.

(** A pass asks the model nothing: its own events are tool calls. *)
Lemma iteration_asks_nothing (st : session_state) (r : response) :
  transcripts (fst (iteration lower st r)) = [].
Proof.
  destruct (step_cases r) as [H|[H|[H|[H|(H1 & H2 & H3 & H4)]]]].
  - rewrite (iteration_start lower st r H); reflexivity.
  - rewrite (iteration_plan lower st r H); reflexivity.
  - rewrite (iteration_tool lower st r H); cbv zeta.
    destruct (dispatch lower _ _);
      destruct (dict_has (available_tools lower) _); reflexivity.
  - rewrite (iteration_output lower st r H); reflexivity.
  - rewrite (iteration_other lower st r H1 H2 H3 H4); reflexivity.
Qed.

Lemma transcripts_app (a b : list event) :
  transcripts (a ++ b) = transcripts a ++ transcripts b.
Proof.
  induction a as [|[t|n i] a IH]; simpl; [reflexivity| |exact IH].
  rewrite IH; reflexivity.
Qed.
End Outcome.

(** ** Runs of the loop *)

(** A reply after which the loop goes round again. *)
Definition goes_on (lower : pystr -> pystr) (r : response) : Prop :=
  step_of r <> lit "OUTPUT" /\ faulty lower r = false.

Section Runs.
Variable lower : pystr -> pystr.
Variable model : list message -> response.

Lemma replies_cons (st : session_state) (evs rest : list event) :
  transcripts evs = [] ->
  replies model (ModelCall (messages st) :: evs ++ rest) =
  model (messages st) :: replies model rest.
Proof.
  intros H; unfold replies; cbn [transcripts List.map].
  rewrite transcripts_app, H; reflexivity.
Qed.

(** A run read off its replies.  It is over through the [break] exactly when
    its last reply is an OUTPUT step, over through an exception exactly when
    its last reply is faulty, and every reply before the last one, or every
    reply so far if the run is still going, is one after which the loop goes
    on.  A run that is still going has used one reply per unit of fuel. *)
Lemma agent_loop_replies (fuel : nat) (st : session_state) :
  let rs := replies model (fst (agent_loop lower model fuel st)) in
  match snd (agent_loop lower model fuel st) with
  | Done _ =>
      exists before last, rs = before ++ [last] /\
        Forall (goes_on lower) before /\ step_of last = lit "OUTPUT"
  | Failed e _ =>
      e = AttributeError /\
      exists before last, rs = before ++ [last] /\
        Forall (goes_on lower) before /\ faulty lower last = true
  | Running _ => Forall (goes_on lower) rs /\ List.length rs = fuel
  end.
Proof.
  revert st; induction fuel as [|n IH]; intros st; [simpl; auto|].
  cbn [agent_loop].
  pose proof (iteration_outcome lower st (model (messages st))) as Ho.
  pose proof (iteration_asks_nothing lower st (model (messages st))) as Hq.
  destruct (iteration lower st (model (messages st))) as [evs o].
  cbn [fst snd] in Ho, Hq.
  destruct o as [st'|st'|e st'].
  - specialize (IH st').
    destruct (agent_loop lower model n st') as [rest res]; cbn [fst snd] in *.
    rewrite (replies_cons st evs rest Hq).
    destruct res as [s|e s|s]; cbv zeta in IH.
    + destruct IH as (before & last & -> & Hb & Hl).
      exists (model (messages st) :: before), last; auto.
    + destruct IH as (-> & before & last & -> & Hb & Hl); split; [reflexivity|].
      exists (model (messages st) :: before), last; auto.
    + destruct IH as (Hb & Hlen); split; [auto|].
      cbn [List.length]; rewrite Hlen; reflexivity.
  - cbn [fst snd]. exists [], (model (messages st)).
    replace (evs) with (evs ++ []) by apply app_nil_r.
    rewrite (replies_cons st evs [] Hq); auto.
  - cbn [fst snd]. destruct Ho as (-> & Hf); split; [reflexivity|].
    exists [], (model (messages st)).
    replace (evs) with (evs ++ []) by apply app_nil_r.
    rewrite (replies_cons st evs [] Hq); auto.
Qed.

(** A run that is over stays as it is when more fuel is given. *)
Lemma agent_loop_stable (fuel more : nat) (st : session_state) :
  (forall s, snd (agent_loop lower model fuel st) <> Running s) ->
  agent_loop lower model (fuel + more) st = agent_loop lower model fuel st.
Proof.
  revert st; induction fuel as [|n IH]; intros st H.
  - exfalso; exact (H st eq_refl).
  - cbn [Nat.add agent_loop] in H |- *.
    destruct (iteration lower st (model (messages st))) as [evs [st'|st'|e st']];
      try reflexivity.
    rewrite IH; [reflexivity|].
    intros s E. apply (H s).
    destruct (agent_loop lower model n st'); cbn [snd] in E |- *; exact E.
Qed.
End Runs.

(** ** The tool call without an input *)

(** A TOOL step that names the registered tool and leaves [input] at the
    default of the schema, [None]. *)
Definition tool_without_input : response :=
  reply "TOOL" None (Some (lit "fetch_movie_metadata")) None.

(** The session as the pass on [tool_without_input] leaves it: the assistant
    message and the history entry are in, the observation is not. *)
Definition left_behind (st : session_state) : session_state :=
  append_history (append_message st (assistant tool_without_input))
    (shown_tool tool_without_input).

Lemma tool_without_input_aborts (lower : pystr -> pystr) (st : session_state) :
  iteration lower st tool_without_input =
  ([ToolCall (Some (lit "fetch_movie_metadata")) None],
   Abort AttributeError (left_behind st)).
Proof. reflexivity. Qed.

Lemma tool_without_input_fails (lower : pystr -> pystr) (st : session_state)
    (n : nat) :
  agent_loop lower (fun _ => tool_without_input) (S n) st =
  ([ModelCall (messages st); ToolCall (Some (lit "fetch_movie_metadata")) None],
   Failed AttributeError (left_behind st)).
Proof. reflexivity. Qed.

(** ** Leaving the loop *)

(** C1. A pass ends at the [break] exactly when the step is OUTPUT.  Any
    other step ends the pass in a continue, with one exception: a TOOL step
    that names a registered tool and has no input ends it in the
    [AttributeError] of the tool, and the model is not asked again.  Over a
    whole run: the loop is left through the [break] only on a reply that is
    an OUTPUT step, it is left through the exception only on such a faulty
    reply, and after any other reply it is still going; once a run is over,
    more fuel changes nothing. *)
Theorem loop_leaves_through_output_or_fault
    (lower : pystr -> pystr) (model : list message -> response) :
  (forall st r,
     is_break (snd (iteration lower st r)) = true <-> step_of r = lit "OUTPUT") /\
  (forall st r,
     step_of r <> lit "OUTPUT" ->
     match snd (iteration lower st r) with
     | Continue _ => faulty lower r = false
     | Break _ => False
     | Abort e _ => e = AttributeError /\ faulty lower r = true
     end) /\
  (forall fuel st,
     let rs := replies model (fst (agent_loop lower model fuel st)) in
     match snd (agent_loop lower model fuel st) with
     | Done _ =>
         exists before last, rs = before ++ [last] /\
           Forall (goes_on lower) before /\ step_of last = lit "OUTPUT"
     | Failed e _ =>
         e = AttributeError /\
         exists before last, rs = before ++ [last] /\
           Forall (goes_on lower) before /\ faulty lower last = true
     | Running _ => Forall (goes_on lower) rs /\ List.length rs = fuel
     end) /\
  (forall fuel more st,
     (forall s, snd (agent_loop lower model fuel st) <> Running s) ->
     agent_loop lower model (fuel + more) st = agent_loop lower model fuel st) /\
  (forall st n,
     step_of tool_without_input = lit "TOOL" /\
     snd (iteration lower st tool_without_input) =
       Abort AttributeError (left_behind st) /\
     agent_loop lower (fun _ => tool_without_input) (S n) st =
       ([ModelCall (messages st);
         ToolCall (Some (lit "fetch_movie_metadata")) None],
        Failed AttributeError (left_behind st))).
Proof.
  split; [|split; [|split; [|split]]].
  - intros st r. pose proof (iteration_outcome lower st r) as H.
    destruct (snd (iteration lower st r)); cbn [is_break].
    + split; [discriminate | intros E; destruct H as [H _]; contradiction].
    + tauto.
    + split; [discriminate|]. intros E. destruct H as [_ H].
      unfold faulty in H. rewrite E in H. discriminate H.
  - intros st r Hne. pose proof (iteration_outcome lower st r) as H.
    destruct (snd (iteration lower st r)); tauto.
  - intros fuel st. apply agent_loop_replies.
  - intros fuel more st. apply agent_loop_stable.
  - intros st n. repeat split.
Qed.

(** ** TOOL steps *)

Section ToolSteps.
Variable lower : pystr -> pystr.
Variables (st : session_state) (r : response).

Let tool_name := MyOutputFormat.tool (parsed r).
Let tool_input := MyOutputFormat.input (parsed r).
Let st1 := append_history (append_message st (assistant r)) (shown_tool r).

(** A TOOL step that is not faulty: the dispatch returns, and the pass ends
    in a continue with the observation appended last. *)
Lemma iteration_tool_returns :
  step_of r = lit "TOOL" -> faulty lower r = false ->
  exists tool_response,
    dispatch lower tool_name tool_input = Return tool_response /\
    iteration lower st r =
    ((if registered lower tool_name then [ToolCall tool_name tool_input] else []),
     Continue (append_message st1 (observation tool_name tool_input tool_response))).
Proof.
  intros H Hf. rewrite (iteration_tool lower st r H); cbv zeta.
  pose proof (dispatch_result lower r H) as D.
  fold tool_name tool_input st1 in D |- *.
  destruct (dispatch lower tool_name tool_input) as [out|e].
  - exists out; split; reflexivity.
  - destruct D as [_ D]; congruence.
Qed.

(** A faulty step: the tool is called and raises, nothing is appended after
    the history entry. *)
Lemma iteration_tool_raises :
  faulty lower r = true ->
  step_of r = lit "TOOL" /\ tool_input = None /\
  iteration lower st r =
  ([ToolCall tool_name None], Abort AttributeError st1).
Proof.
  unfold faulty; intros Hf.
  apply andb_true_iff in Hf; destruct Hf as [Hf Hi].
  apply andb_true_iff in Hf; destruct Hf as [Hs Hr].
  apply str_eqb_eq in Hs.
  fold tool_name in Hr. fold tool_input in Hi.
  assert (Hn : tool_input = None) by (destruct tool_input; [discriminate|reflexivity]).
  repeat split; [exact Hs | exact Hn |].
  rewrite (iteration_tool lower st r Hs); cbv zeta.
  fold tool_name tool_input st1.
  rewrite (dispatch_registered lower _ _ Hr).
  unfold registered in Hr. rewrite Hr, Hn. reflexivity.
Qed.
End ToolSteps.

(** C5. A TOOL step that names a tool the registry lacks (or names none)
    raises nothing.  The dispatch returns the text
    [Error: Tool <name> not found.], which contains the name as it was given
    and the marker [not found]; the observation appended to the transcript
    carries that text as its output; the pass ends in a continue and the loop
    goes on from there, asking the model again. *)
Theorem unregistered_tool_is_reported
    (lower : pystr -> pystr) (model : list message -> response)
    (st : session_state) (r : response) :
  step_of r = lit "TOOL" ->
  registered lower (MyOutputFormat.tool (parsed r)) = false ->
  let tool_name := MyOutputFormat.tool (parsed r) in
  let tool_input := MyOutputFormat.input (parsed r) in
  let tool_response := lit "Error: Tool " ++ fmt tool_name ++ lit " not found." in
  let seen :=
    {| role := lit "developer";
       content := json_dumps
         (PyDict [(lit "step", PyStr (lit "OBSERVE"));
                  (lit "tool", json_opt tool_name);
                  (lit "input", json_opt tool_input);
                  (lit "output", PyStr tool_response)]) |} in
  let st' :=
    {| messages := messages st ++ [assistant r; seen];
       chat_history := chat_history st ++ [shown_tool r] |} in
  dispatch lower tool_name tool_input = Return tool_response /\
  str_in (fmt tool_name) tool_response = true /\
  str_in (lit "not found") tool_response = true /\
  iteration lower st r = ([], Continue st') /\
  (model (messages st) = r ->
   forall n,
     agent_loop lower model (S n) st =
     (ModelCall (messages st) :: fst (agent_loop lower model n st'),
      snd (agent_loop lower model n st')) /\
     exists rest,
       fst (agent_loop lower model (S (S n)) st) =
       ModelCall (messages st) :: ModelCall (messages st') :: rest).
Proof.
  intros H Hr tool_name tool_input tool_response seen st'.
  assert (Hd : dispatch lower tool_name tool_input = Return tool_response)
    by (apply dispatch_unregistered; exact Hr).
  assert (Hit : iteration lower st r = ([], Continue st')).
  { rewrite (iteration_tool lower st r H); cbv zeta.
    fold tool_name tool_input. rewrite Hd.
    unfold registered in Hr; fold tool_name in Hr; rewrite Hr.
    unfold st', append_message, append_history; cbn [messages chat_history].
    rewrite <- app_assoc; reflexivity. }
  split; [exact Hd|]. split; [apply str_in_middle|].
  split; [|split; [exact Hit|]].
  - replace tool_response
      with ((lit "Error: Tool " ++ fmt tool_name ++ [32]) ++
            lit "not found" ++ lit ".")
      by (unfold tool_response; rewrite <- !app_assoc; reflexivity).
    apply str_in_middle.
  - intros Hm n.
    assert (Hc : forall k, agent_loop lower model (S k) st =
      (ModelCall (messages st) :: fst (agent_loop lower model k st'),
       snd (agent_loop lower model k st'))).
    { intros k.
      pose proof (agent_loop_continue lower model k st st' []) as Hk.
      rewrite Hm in Hk. rewrite (Hk Hit); reflexivity. }
    split; [apply Hc|].
    destruct (agent_loop_asks lower model n st') as [rest Hrest].
    exists rest. rewrite Hc; cbn [fst]. rewrite Hrest; reflexivity.
Qed.

Lemma unregistered_tool_is_reported_witness :
  let r := reply "TOOL" None (Some (lit "search_imdb")) (Some (lit "sci-fi")) in
  dispatch ascii_lower (Some (lit "search_imdb")) (Some (lit "sci-fi")) =
  Return (lit "Error: Tool search_imdb not found.").
Proof.
  intros r.
  apply (unregistered_tool_is_reported ascii_lower (fun _ => r) asked r);
    reflexivity.
Defined.

(** What a pass appends to the transcript: the assistant message, and after
    it the observation when the step is TOOL and the dispatch returns. *)
Lemma iteration_messages (lower : pystr -> pystr) (st : session_state)
    (r : response) :
  messages (state_of (snd (iteration lower st r))) =
  messages st ++ assistant r ::
  (if str_eqb (step_of r) (lit "TOOL")
   then match dispatch lower (MyOutputFormat.tool (parsed r))
                             (MyOutputFormat.input (parsed r)) with
        | Return out =>
            [observation (MyOutputFormat.tool (parsed r))
                         (MyOutputFormat.input (parsed r)) out]
        | Raise _ => []
        end
   else []).
Proof.
  destruct (step_cases r) as [H|[H|[H|[H|(H1 & H2 & H3 & H4)]]]].
  - rewrite (iteration_start lower st r H), H; reflexivity.
  - rewrite (iteration_plan lower st r H), H; reflexivity.
  - rewrite (iteration_tool lower st r H), H; cbv zeta.
    destruct (dispatch lower _ _); cbn; [|reflexivity].
    rewrite <- app_assoc; reflexivity.
  - rewrite (iteration_output lower st r H), H; reflexivity.
  - rewrite (iteration_other lower st r H1 H2 H3 H4).
    apply str_eqb_neq in H3; rewrite H3; reflexivity.
Qed.

(** C3. On a TOOL step with fields left out: a missing tool name takes the
    not-found path, whatever the input is, and the pass goes on with the
    error text as observation; a missing input is passed on as it is, which
    an unregistered name survives (not-found path, the observation shows
    null); a registered tool called without input raises [AttributeError],
    which nothing catches.  That is the only way a TOOL step raises. *)
Theorem tool_step_with_missing_fields
    (lower : pystr -> pystr) (st : session_state) (r : response) :
  step_of r = lit "TOOL" ->
  let tool_name := MyOutputFormat.tool (parsed r) in
  let tool_input := MyOutputFormat.input (parsed r) in
  let st1 := append_history (append_message st (assistant r)) (shown_tool r) in
  (tool_name = None ->
   iteration lower st r =
   ([], Continue (append_message st1
          (observation None tool_input (lit "Error: Tool None not found."))))) /\
  (tool_input = None -> registered lower tool_name = false ->
   iteration lower st r =
   ([], Continue (append_message st1
          (observation tool_name None (tool_not_found tool_name))))) /\
  (tool_input = None -> registered lower tool_name = true ->
   iteration lower st r = ([ToolCall tool_name None], Abort AttributeError st1)) /\
  (forall e st',
     snd (iteration lower st r) = Abort e st' ->
     e = AttributeError /\ registered lower tool_name = true /\ tool_input = None).
Proof.
  intros H tool_name tool_input st1.
  pose proof (iteration_tool lower st r H) as Hit; cbv zeta in Hit.
  fold tool_name tool_input st1 in Hit.
  split; [|split; [|split]].
  - intros Hn. rewrite Hit, Hn. reflexivity.
  - intros Hi Hr. rewrite Hit, (dispatch_unregistered lower _ _ Hr).
    unfold registered in Hr; rewrite Hr, Hi. reflexivity.
  - intros Hi Hr. rewrite Hit, (dispatch_registered lower _ _ Hr).
    unfold registered in Hr; rewrite Hr, Hi. reflexivity.
  - intros e st' Ha.
    pose proof (iteration_outcome lower st r) as Ho. rewrite Ha in Ho.
    destruct Ho as [He Hf]. rewrite (faulty_tool lower r H) in Hf.
    apply andb_true_iff in Hf. destruct Hf as [Hr Hi].
    fold tool_input in Hi.
    repeat split; [exact He | exact Hr |].
    destruct tool_input; [discriminate | reflexivity].
Qed.

Lemma tool_step_with_missing_fields_witness :
  let r := reply "TOOL" None None None in
  iteration ascii_lower asked r =
  ([], Continue
         (append_message
            (append_history (append_message asked (assistant r)) (shown_tool r))
            (observation None None (lit "Error: Tool None not found.")))).
Proof.
  intros r.
  apply (tool_step_with_missing_fields ascii_lower asked r); reflexivity.
Defined.

(** C4. What a pass adds to the transcript.  A step that is not TOOL adds
    the assistant message alone.  A TOOL step whose dispatch returns adds
    the assistant message and, after it, one developer message.  A TOOL step
    whose dispatch raises (registered tool, no input) has added the
    assistant message alone when the exception leaves the loop. *)
Theorem transcript_growth
    (lower : pystr -> pystr) (st : session_state) (r : response) :
  let st' := state_of (snd (iteration lower st r)) in
  let tool_name := MyOutputFormat.tool (parsed r) in
  let tool_input := MyOutputFormat.input (parsed r) in
  (step_of r <> lit "TOOL" ->
   messages st' = messages st ++ [assistant r] /\
   List.length (messages st') = (List.length (messages st) + 1)%nat) /\
  (step_of r = lit "TOOL" -> faulty lower r = false ->
   exists tool_response,
     dispatch lower tool_name tool_input = Return tool_response /\
     messages st' =
       messages st ++ [assistant r; observation tool_name tool_input tool_response] /\
     List.length (messages st') = (List.length (messages st) + 2)%nat) /\
  (faulty lower r = true ->
   step_of r = lit "TOOL" /\
   snd (iteration lower st r) = Abort AttributeError st' /\
   messages st' = messages st ++ [assistant r] /\
   List.length (messages st') = (List.length (messages st) + 1)%nat) /\
  role (assistant r) = lit "assistant" /\
  (forall out, role (observation tool_name tool_input out) = lit "developer").
Proof.
  intros st' tool_name tool_input.
  pose proof (iteration_messages lower st r) as Hm.
  fold st' tool_name tool_input in Hm.
  split; [|split; [|split; [|split; reflexivity]]].
  - intros Hn. apply str_eqb_neq in Hn. rewrite Hn in Hm.
    rewrite Hm, length_app. split; reflexivity.
  - intros H Hf.
    destruct (iteration_tool_returns lower st r H Hf) as (out & Hd & _).
    fold tool_name tool_input in Hd.
    rewrite H, str_eqb_refl, Hd in Hm.
    exists out. rewrite Hm, length_app.
    split; [exact Hd | split; reflexivity].
  - intros Hf.
    destruct (iteration_tool_raises lower st r Hf) as (H & Hi & Hit).
    fold tool_name in Hit. fold tool_input in Hi.
    assert (Hd : dispatch lower tool_name tool_input = Raise AttributeError).
    { pose proof (dispatch_result lower r H) as D.
      fold tool_name tool_input in D.
      destruct (dispatch lower tool_name tool_input) as [out|e];
        [congruence | destruct D as [-> _]; reflexivity]. }
    rewrite H, str_eqb_refl, Hd in Hm.
    split; [exact H|]. split; [unfold st'; rewrite Hit; reflexivity|].
    rewrite Hm, length_app. split; reflexivity.
Qed.

(** C7. On a TOOL step whose dispatch returns, the developer message that
    serialises step OBSERVE, the tool, the input and the output is appended
    right after the assistant message of that step, and the next call of the
    model is made with the transcript that ends in it.  On a TOOL step whose
    dispatch raises (registered tool, no input) no observation is appended:
    the run is over after one call, and the next turn of the user asks the
    model with a transcript in which the TOOL step is followed by the user
    message. *)
Theorem observation_precedes_next_call
    (lower : pystr -> pystr) (model : list message -> response)
    (st : session_state) (r : response) :
  step_of r = lit "TOOL" ->
  let tool_name := MyOutputFormat.tool (parsed r) in
  let tool_input := MyOutputFormat.input (parsed r) in
  (faulty lower r = false ->
   exists tool_response,
     dispatch lower tool_name tool_input = Return tool_response /\
     let seen :=
       {| role := lit "developer";
          content := json_dumps
            (PyDict [(lit "step", PyStr (lit "OBSERVE"));
                     (lit "tool", json_opt tool_name);
                     (lit "input", json_opt tool_input);
                     (lit "output", PyStr tool_response)]) |} in
     messages (state_of (snd (iteration lower st r))) =
       messages st ++ [assistant r; seen] /\
     (model (messages st) = r ->
      forall n, exists rest,
        transcripts (fst (agent_loop lower model (S (S n)) st)) =
        messages st :: (messages st ++ [assistant r; seen]) :: rest)) /\
  (faulty lower r = true ->
   let st1 := append_history (append_message st (assistant r)) (shown_tool r) in
   snd (iteration lower st r) = Abort AttributeError st1 /\
   (model (messages st) = r ->
    forall n,
      agent_loop lower model (S n) st =
      ([ModelCall (messages st); ToolCall tool_name None],
       Failed AttributeError st1)) /\
   (forall c q n, exists rest,
      transcripts (fst (user_turn lower model (S n) st1 (Some (c :: q)))) =
      (messages st ++
         [assistant r; {| role := lit "user"; content := c :: q |}]) :: rest)).
Proof.
  intros H tool_name tool_input. split.
  - intros Hf.
    destruct (iteration_tool_returns lower st r H Hf) as (out & Hd & Hit).
    fold tool_name tool_input in Hd, Hit.
    exists out. split; [exact Hd|]. intros seen.
    change seen with (observation tool_name tool_input out).
    split.
    + rewrite Hit; cbn [snd state_of append_message append_history messages].
      rewrite <- app_assoc; reflexivity.
    + intros Hm n.
      pose proof (agent_loop_continue lower model (S n) st) as Hk.
      rewrite Hm in Hk. rewrite (Hk _ _ Hit); cbn [fst transcripts].
      rewrite transcripts_app.
      replace (transcripts (if registered lower tool_name
                            then [ToolCall tool_name tool_input] else []))
        with (@nil (list message))
        by (destruct (registered lower tool_name); reflexivity).
      destruct (agent_loop_asks lower model n
                  (append_message
                     (append_history (append_message st (assistant r))
                        (shown_tool r))
                     (observation tool_name tool_input out))) as [rest Hrest].
      rewrite Hrest. exists (transcripts rest).
      cbn [app transcripts append_message append_history messages].
      rewrite <- app_assoc; reflexivity.
  - intros Hf st1.
    destruct (iteration_tool_raises lower st r Hf) as (_ & Hi & Hit).
    fold tool_name in Hit. fold st1 in Hit.
    split; [rewrite Hit; reflexivity|]. split.
    + intros Hm n.
      pose proof (agent_loop_abort lower model n st) as Hk.
      rewrite Hm in Hk. exact (Hk _ _ _ Hit).
    + intros c q n. unfold user_turn.
      destruct (agent_loop_asks lower model n
                  (append_history
                     (append_message st1
                        {| role := lit "user"; content := c :: q |})
                     (lit "user", c :: q))) as [rest Hrest].
      rewrite Hrest. exists (transcripts rest).
      cbn [transcripts append_message append_history messages st1].
      rewrite <- app_assoc; reflexivity.
Qed.

Lemma observation_precedes_next_call_witness :
  let r := reply "TOOL" None (Some (lit "get_movie_data")) (Some (lit "comedy")) in
  exists tool_response,
    dispatch ascii_lower (Some (lit "get_movie_data")) (Some (lit "comedy")) =
      Return tool_response /\
    messages (state_of (snd (iteration ascii_lower asked r))) =
      messages asked ++
      [assistant r;
       observation (Some (lit "get_movie_data")) (Some (lit "comedy"))
         tool_response].
Proof.
  intros r.
  destruct (proj1 (observation_precedes_next_call ascii_lower (fun _ => r)
                     asked r eq_refl) eq_refl) as (out & Hd & Hm & _).
  exists out. split; [exact Hd | exact Hm].
Defined.

(** ** Substrings and serialised values *)

Lemma startswith_iff (p s : pystr) :
  startswith p s = true <-> exists t, s = p ++ t.
Proof.
  revert s; induction p as [|x p IH]; intros s; simpl.
  - split; [exists s; reflexivity | reflexivity].
  - destruct s as [|y s].
    + split; [discriminate | intros [t H]; discriminate H].
    + rewrite andb_true_iff, N.eqb_eq, IH. split.
      * intros [-> [t ->]]; exists t; reflexivity.
      * intros [t H]; inversion H; subst; eauto.
Qed.

Lemma str_in_iff (needle hay : pystr) :
  str_in needle hay = true <-> exists p s, hay = p ++ needle ++ s.
Proof.
  split.
  - induction hay as [|y hay IH]; simpl; rewrite orb_true_iff.
    + intros [H|H]; [|discriminate].
      apply startswith_iff in H; destruct H as [t ->]; exists [], t; reflexivity.
    + intros [H|H].
      * apply startswith_iff in H; destruct H as [t ->]; exists [], t; reflexivity.
      * destruct (IH H) as (p & s & ->); exists (y :: p), s; reflexivity.
  - intros (p & s & ->); apply str_in_middle.
Qed.

Lemma str_in_trans (a b c : pystr) :
  str_in a b = true -> str_in b c = true -> str_in a c = true.
Proof.
  rewrite !str_in_iff; intros (p & s & ->) (p' & s' & ->).
  exists (p' ++ p), (s ++ s'); rewrite <- !app_assoc; reflexivity.
Qed.

Lemma join_In (sep x : pystr) (parts : list pystr) :
  In x parts -> exists p s, join sep parts = p ++ x ++ s.
Proof.
  induction parts as [|y parts IH]; [intros []|].
  intros [->|H].
  - destruct parts as [|z parts]; [exists [], []|exists [], (sep ++ join sep (z :: parts))];
      cbn [join app]; rewrite ?app_nil_r; reflexivity.
  - destruct (IH H) as (p & s & E).
    destruct parts as [|z parts]; [destruct H|].
    exists (y ++ sep ++ p), s. cbn [join] in E |- *.
    rewrite E, <- !app_assoc; reflexivity.
Qed.

Lemma dict_get_In {V : Type} (d : list (pystr * V)) (k : pystr) (v : V) :
  dict_get d k = Some v -> In (k, v) d.
Proof.
  induction d as [|[k' v'] d IH]; cbn [dict_get]; [discriminate|].
  destruct (str_eqb k' k) eqn:E.
  - apply str_eqb_eq in E; intros H; inversion H; subst; left; reflexivity.
  - intros H; right; auto.
Qed.

(** The text of a dictionary shows each of its keys, quoted. *)
Lemma json_dumps_shows_key (d : list (pystr * pyval)) (k : pystr) (x : pyval) :
  dict_get d k = Some x ->
  str_in (encode_str k) (json_dumps (PyDict d)) = true.
Proof.
  intros H; apply dict_get_In in H.
  apply (in_map (fun kv => match kv with
                           | (k, x) => encode_str k ++ lit ": " ++ json_dumps x
                           end)) in H.
  destruct (join_In (lit ", ") _ _ H) as (p & s & E).
  apply str_in_iff.
  exists (lit "{" ++ p), (lit ": " ++ json_dumps x ++ s ++ lit "}").
  cbn [json_dumps]; rewrite E, <- !app_assoc; reflexivity.
Qed.

(** The text of a list shows the text of each of its items. *)
Lemma json_dumps_shows_item (l : list pyval) (x : pyval) :
  In x l -> str_in (json_dumps x) (json_dumps (PyList l)) = true.
Proof.
  intros H; apply (in_map json_dumps) in H.
  destruct (join_In (lit ", ") _ _ H) as (p & s & E).
  apply str_in_iff. exists (lit "[" ++ p), (s ++ lit "]").
  cbn [json_dumps]; rewrite E, <- !app_assoc; reflexivity.
Qed.

(** ** What the tool returns *)

Definition has_key (name : pystr) (v : pyval) : bool :=
  match v with
  | PyDict d => dict_has d (Some name)
  | _ => false
  end.

Definition field (name : pystr) (v : pyval) : option pyval :=
  match v with
  | PyDict d => dict_get d name
  | _ => None
  end.

(** An entry as the tool holds it: the four keys [title], [genre],
    [imdb_rating] and [runtime_mins] in this order, two strings, a float
    between 0.0 and 10.0 and a positive integer. *)
Definition entry_ok (v : pyval) : bool :=
  match v with
  | PyDict [(k1, PyStr _); (k2, PyStr _); (k3, PyFloat rating); (k4, PyInt mins)] =>
      str_eqb k1 (lit "title") && str_eqb k2 (lit "genre") &&
      str_eqb k3 (lit "imdb_rating") && str_eqb k4 (lit "runtime_mins") &&
      (0 <=? rating)%Z && (rating <=? 100)%Z && (0 <? mins)%Z
  | _ => false
  end.

(** Following the specification's words: an entry with the fields [title],
    [genre], [rating], a number from 0.0 to 10.0, and [runtime_minutes], a
    positive integer. *)
Definition entry_as_specified (v : pyval) : bool :=
  has_key (lit "title") v && has_key (lit "genre") v &&
  match field (lit "rating") v with
  | Some (PyFloat t) => (0 <=? t)%Z && (t <=? 100)%Z
  | Some (PyInt z) => (0 <=? z)%Z && (z <=? 10)%Z
  | _ => false
  end &&
  match field (lit "runtime_minutes") v with
  | Some (PyInt z) => (0 <? z)%Z
  | _ => false
  end.

Definition json_ws (c : N) : bool :=
  (c =? 32) || (c =? 9) || (c =? 10) || (c =? 13).

Fixpoint skip_ws (s : pystr) : pystr :=
  match s with
  | [] => []
  | c :: s' => if json_ws c then skip_ws s' else s
  end.

(** What every text that reads as a JSON array starts with: white space,
    then an opening bracket. *)
Definition opens_array (s : pystr) : bool :=
  match skip_ws s with
  | 91 :: _ => true
  | _ => false
  end.

Lemma broaden_In (keyword preference_keyword : pystr)
    (items : list (pystr * list pyval)) (value : list pyval) :
  broaden keyword preference_keyword items = Some value ->
  In value (List.map snd items).
Proof.
  induction items as [|[key v] items IH]; cbn [broaden]; [discriminate|].
  destruct (str_in key keyword || str_in preference_keyword key).
  - intros H; inversion H; left; reflexivity.
  - intros H; right; auto.
Qed.

(** Whatever the tool selects is one of the three lists of its table. *)
Lemma found_In (lower : pystr -> pystr) (k : pystr) (value : list pyval) :
  found lower k = Some value -> In value (List.map snd mock_movies).
Proof.
  unfold found.
  destruct (dict_get mock_movies (strip (lower k))) as [l|] eqn:E.
  - assert (Hl : In l (List.map snd mock_movies))
      by (apply dict_get_In in E; apply (in_map snd) in E; exact E).
    destruct (negb (truthy (Some l))); [|intros H; inversion H; subst; exact Hl].
    destruct (broaden _ _ _) eqn:B; intros H; inversion H; subst;
      [apply broaden_In in B; exact B | exact Hl].
  - cbn [truthy negb].
    destruct (broaden _ _ _) eqn:B; intros H; inversion H; subst.
    apply broaden_In in B; exact B.
Qed.

Lemma mock_movies_entries :
  Forall (fun l => forallb entry_ok l = true) (List.map snd mock_movies).
Proof. repeat constructor. Qed.

(** What the tool returns, by what it selected: the [json.dumps] text of
    the selected list, a non-empty array whose entries each have the keys
    [title], [genre], [imdb_rating] and [runtime_mins], or else the
    not-found text, which opens with a warning sign and not with a
    bracket. *)
Lemma fetch_by_selection (lower : pystr -> pystr) (k : pystr) :
  match found lower k with
  | Some (m :: ms) =>
      fetch_str lower k = json_dumps (PyList (m :: ms)) /\
      forallb entry_ok (m :: ms) = true /\
      opens_array (fetch_str lower k) = true
  | _ =>
      fetch_str lower k = not_found k /\
      opens_array (fetch_str lower k) = false
  end.
Proof.
  unfold fetch_str.
  destruct (found lower k) as [[|m ms]|] eqn:E; try (split; reflexivity).
  split; [reflexivity|]. split; [|reflexivity].
  apply found_In in E.
  exact (proj1 (Forall_forall _ _) mock_movies_entries _ E).
Qed.

(** The quoted key as [json.dumps] writes it. *)
Definition quoted (name : string) : pystr := encode_str (lit name).

(** With the field names of the specification the property fails on the
    keyword [sci-fi]: the text returned is not the serialisation of any list
    of entries that have the fields [rating] and [runtime_minutes]; it
    contains neither key. *)
Lemma fetch_sci_fi_has_no_rating_field :
  found ascii_lower (lit "sci-fi") <> None /\
  str_in (quoted "rating") (fetch_str ascii_lower (lit "sci-fi")) = false /\
  str_in (quoted "runtime_minutes") (fetch_str ascii_lower (lit "sci-fi")) = false /\
  ~ exists entries,
      fetch_str ascii_lower (lit "sci-fi") = json_dumps (PyList entries) /\
      forallb entry_as_specified entries = true.
Proof.
  split; [vm_compute; discriminate|].
  split; [vm_compute; reflexivity|]. split; [vm_compute; reflexivity|].
  intros (entries & E & H).
  destruct entries as [|m ms]; [vm_compute in E; discriminate E|].
  cbn [forallb] in H. apply andb_true_iff in H; destruct H as [H _].
  unfold entry_as_specified in H.
  apply andb_true_iff in H; destruct H as [H _].
  apply andb_true_iff in H; destruct H as [_ H].
  destruct m as [| | | | |d]; try discriminate H. cbn [field] in H.
  destruct (dict_get d (lit "rating")) as [x|] eqn:G; [|discriminate H].
  pose proof (json_dumps_shows_key d _ _ G) as S1.
  pose proof (json_dumps_shows_item (PyDict d :: ms) (PyDict d) (or_introl eq_refl)) as S2.
  pose proof (str_in_trans _ _ _ S1 S2) as S3.
  rewrite <- E in S3. vm_compute in S3. discriminate S3.
Qed.

(** ** The fallback of the lookup *)

(** Following the specification's words: the keyword is normalised, an exact
    match is tried, and on a miss the first category is taken whose key is
    inside the normalised keyword or contains the normalised keyword. *)
Definition fetch_as_specified (lower : pystr -> pystr)
    (preference_keyword : pystr) : pystr :=
  let keyword := strip (lower preference_keyword) in
  let movies := dict_get mock_movies keyword in
  let movies :=
    if negb (truthy movies)
    then match broaden keyword keyword mock_movies with
         | Some value => Some value
         | None => movies
         end
    else movies in
  match movies with
  | Some (m :: ms) => json_dumps (PyList (m :: ms))
  | _ => not_found preference_keyword
  end.

(** The test of the scan, as the source writes it: the key inside the
    normalised keyword, or the keyword as it was passed in inside the key. *)
Definition passes (keyword preference_keyword : pystr)
    (item : pystr * list pyval) : bool :=
  str_in (fst item) keyword || str_in preference_keyword (fst item).

Lemma broaden_find (keyword preference_keyword : pystr)
    (items : list (pystr * list pyval)) :
  broaden keyword preference_keyword items =
  option_map snd (List.find (passes keyword preference_keyword) items).
Proof.
  induction items as [|[key value] items IH]; [reflexivity|].
  cbn [broaden List.find]; unfold passes at 1; cbn [fst].
  destruct (str_in key keyword || str_in preference_keyword key);
    [reflexivity | exact IH].
Qed.

(** C2. The tool normalises the keyword (lower case, stripped) and tries an
    exact match first.  On a miss it takes the first category, in the order
    sci-fi, action, comedy, whose key is inside the normalised keyword or
    contains the keyword as it was passed in, not normalised; only when no
    category passes does it return the not-found text.  On a keyword that is
    already normalised this is the lookup the specification words; on [Sci]
    it is not: the code finds nothing where the wording selects sci-fi. *)
Theorem fetch_fallback_tests_raw_keyword :
  (forall lower k,
     let keyword := strip (lower k) in
     fetch_str lower k =
     match dict_get mock_movies keyword with
     | Some (m :: ms) => json_dumps (PyList (m :: ms))
     | _ =>
         match List.find (passes keyword k) mock_movies with
         | Some (_, m :: ms) => json_dumps (PyList (m :: ms))
         | _ => not_found k
         end
     end) /\
  (forall lower k,
     strip (lower k) = k -> fetch_str lower k = fetch_as_specified lower k) /\
  strip (ascii_lower (lit "Sci")) = lit "sci" /\
  str_in (lit "sci") (lit "sci-fi") = true /\
  str_in (lit "Sci") (lit "sci-fi") = false /\
  fetch_str ascii_lower (lit "Sci") = not_found (lit "Sci") /\
  fetch_as_specified ascii_lower (lit "Sci") = fetch_str ascii_lower (lit "sci-fi") /\
  found ascii_lower (lit "sci-fi") = dict_get mock_movies (lit "sci-fi").
Proof.
  split; [|split].
  - intros lower k keyword. unfold fetch_str, found. fold keyword.
    rewrite broaden_find.
    destruct (dict_get mock_movies keyword) as [[|m ms]|]; cbn [truthy negb];
      try reflexivity;
      destruct (List.find (passes keyword k) mock_movies) as [[key [|m ms]]|];
      reflexivity.
  - intros lower k E. unfold fetch_str, found, fetch_as_specified.
    rewrite E; reflexivity.
  - repeat split; vm_compute; reflexivity.
Qed.

(** ** A whole turn *)

(** A model that plans, calls the tool on [sci-fi] and then answers, told
    apart by the length of the transcript it is asked with. *)
Definition scripted (transcript : list message) : response :=
  match List.length transcript with
  | 2%nat => reply "PLAN" (Some (lit "look up sci-fi titles")) None None
  | 3%nat => reply "TOOL" None (Some (lit "fetch_movie_metadata")) (Some (lit "sci-fi"))
  | _ => reply "OUTPUT" (Some (lit "Space Odyssey 2001")) None None
  end.

(** The turn is over after three calls of the model and one of the tool, and
    the transcript then holds six messages: system, user, three assistant
    messages and one observation. *)
Example turn_sci_fi :
  let (evs, res) :=
    user_turn ascii_lower scripted 10 fresh
      (Some (lit "Suggest a sci-fi movie under 150 minutes")) in
  List.length (transcripts evs) = 3%nat /\
  List.length evs = 4%nat /\
  match res with
  | Done st =>
      List.map role (messages st) =
      List.map lit ["system"; "user"; "assistant"; "assistant"; "developer";
                    "assistant"]%string /\
      List.length (chat_history st) = 4%nat
  | _ => False
  end.
Proof. vm_compute. repeat split. Qed.

(** * Further properties of the tool *)

Lemma find_none_all {A : Type} (f : A -> bool) (l : list A) :
  List.find f l = None <-> forall x, In x l -> f x = false.
Proof.
  induction l as [|a l IH]; cbn [List.find].
  - split; [intros _ x [] | reflexivity].
  - destruct (f a) eqn:E.
    + split; [discriminate|]. intros H.
      rewrite (H a (or_introl eq_refl)) in E; discriminate E.
    + rewrite IH. split.
      * intros H x [<-|Hx]; [exact E | exact (H x Hx)].
      * intros H x Hx; exact (H x (or_intror Hx)).
Qed.

Lemma find_some_in {A : Type} (f : A -> bool) (l : list A) (x : A) :
  List.find f l = Some x -> In x l /\ f x = true.
Proof.
  induction l as [|a l IH]; cbn [List.find]; [discriminate|].
  destruct (f a) eqn:E.
  - intros H; inversion H; subst; split; [left; reflexivity | exact E].
  - intros H; destruct (IH H); split; [right|]; assumption.
Qed.

(** Every list of the table has movies in it. *)
Lemma mock_movies_lists (key : pystr) (l : list pyval) :
  In (key, l) mock_movies -> exists m ms, l = m :: ms.
Proof.
  intros [H|[H|[H|[]]]]; inversion H; eauto.
Qed.

(** The text of a list opens with a bracket, the not-found text does not. *)
Lemma json_list_is_no_notice (l : list pyval) (k : pystr) :
  json_dumps (PyList l) <> not_found k.
Proof. cbn; discriminate. Qed.

(** The exact lookup finds what the table holds under a key. *)
Lemma mock_movies_get (key : pystr) (l : list pyval) :
  In (key, l) mock_movies -> dict_get mock_movies key = Some l.
Proof.
  intros [H|[H|[H|[]]]]; inversion H; reflexivity.
Qed.

Section ToolFacts.
Variable lower : pystr -> pystr.

(** The selection of the tool, spelled out: the exact match if there is
    one, else the first item of the table that passes the scan. *)
Lemma found_spelled_out (k : pystr) :
  found lower k =
  match dict_get mock_movies (strip (lower k)) with
  | Some l => Some l
  | None => option_map snd (List.find (passes (strip (lower k)) k) mock_movies)
  end.
Proof.
  unfold found. rewrite broaden_find.
  destruct (dict_get mock_movies (strip (lower k))) as [l|] eqn:E.
  - apply dict_get_In in E. destruct (mock_movies_lists _ _ E) as (m & ms & ->).
    reflexivity.
  - cbn [truthy negb].
    destruct (List.find _ mock_movies) as [[key l]|]; reflexivity.
Qed.

(** X1. The not-found text comes back exactly when nothing matches: the
    normalised keyword is no key of the table, and no key is inside the
    normalised keyword or has the keyword as passed inside it.  In every
    other case the text is the serialisation of one of the lists of the
    table, which is never the not-found text. *)
Theorem not_found_iff_nothing_matches (k : pystr) :
  (fetch_str lower k = not_found k <->
   dict_get mock_movies (strip (lower k)) = None /\
   forall key l, In (key, l) mock_movies ->
     str_in key (strip (lower k)) = false /\ str_in k key = false) /\
  (fetch_str lower k <> not_found k ->
   exists key l, In (key, l) mock_movies /\
     fetch_str lower k = json_dumps (PyList l)).
Proof.
  unfold fetch_str. rewrite found_spelled_out.
  destruct (dict_get mock_movies (strip (lower k))) as [l|] eqn:E.
  - pose proof (dict_get_In _ _ _ E) as Hin.
    destruct (mock_movies_lists _ _ Hin) as (m & ms & ->).
    split; [split|].
    + intros H; exfalso; exact (json_list_is_no_notice _ _ H).
    + intros [H _]; discriminate H.
    + intros _; eauto.
  - destruct (List.find (passes (strip (lower k)) k) mock_movies)
      as [[key l]|] eqn:F; cbn [option_map snd].
    + destruct (find_some_in _ _ _ F) as [Hin Hp].
      destruct (mock_movies_lists _ _ Hin) as (m & ms & ->).
      split; [split|].
      * intros H; exfalso; exact (json_list_is_no_notice _ _ H).
      * intros [_ H]. destruct (H _ _ Hin) as [H1 H2].
        unfold passes in Hp; cbn [fst] in Hp. rewrite H1, H2 in Hp.
        discriminate Hp.
      * intros _; eauto.
    + split; [split|].
      * intros _. split; [reflexivity|]. intros key l Hin.
        pose proof (proj1 (find_none_all _ _) F _ Hin) as Hp.
        unfold passes in Hp; cbn [fst] in Hp.
        apply orb_false_iff in Hp; exact Hp.
      * reflexivity.
      * intros H; exfalso; apply H; reflexivity.
Qed.

(** X2. A keyword whose normalised form is a key of the table gets that
    category, whatever its case and the white space around it. *)
Theorem exact_match_after_normalising (k key : pystr) (l : list pyval) :
  In (key, l) mock_movies ->
  strip (lower k) = key ->
  fetch_str lower k = json_dumps (PyList l).
Proof.
  intros Hin E. unfold fetch_str. rewrite found_spelled_out, E.
  rewrite (mock_movies_get _ _ Hin).
  destruct (mock_movies_lists _ _ Hin) as (m & ms & ->). reflexivity.
Qed.

(** X3. The order of the table breaks ties: a keyword whose normalised form
    mentions sci-fi gets the sci-fi list, also when it mentions action or
    comedy as well. *)
Theorem sci_fi_wins_ties (k : pystr) :
  str_in (lit "sci-fi") (strip (lower k)) = true ->
  dict_get mock_movies (lit "sci-fi") = found lower k /\
  exists l, dict_get mock_movies (lit "sci-fi") = Some l /\
            fetch_str lower k = json_dumps (PyList l).
Proof.
  intros H.
  assert (F : found lower k = dict_get mock_movies (lit "sci-fi")).
  { rewrite found_spelled_out.
    destruct (dict_get mock_movies (strip (lower k))) as [l|] eqn:E.
    - cbn [dict_get mock_movies] in E.
      destruct (str_eqb (lit "sci-fi") (strip (lower k))) eqn:E1;
        [rewrite <- E; reflexivity|].
      destruct (str_eqb (lit "action") (strip (lower k))) eqn:E2;
        [apply str_eqb_eq in E2; rewrite <- E2 in H; discriminate H|].
      destruct (str_eqb (lit "comedy") (strip (lower k))) eqn:E3;
        [apply str_eqb_eq in E3; rewrite <- E3 in H; discriminate H|].
      discriminate E.
    - cbn [mock_movies List.find]. unfold passes at 1; cbn [fst].
      rewrite H; reflexivity. }
  split; [symmetry; exact F|].
  unfold fetch_str; rewrite F. eexists; split; reflexivity.
Qed.
End ToolFacts.

Lemma exact_match_after_normalising_witness :
  fetch_str ascii_lower (lit "  COMEDY ") =
  fetch_str ascii_lower (lit "comedy") /\
  opens_array (fetch_str ascii_lower (lit "  COMEDY ")) = true.
Proof.
  split; [|reflexivity].
  rewrite (exact_match_after_normalising ascii_lower (lit "  COMEDY ")
             (lit "comedy") _ (or_intror (or_intror (or_introl eq_refl))) eq_refl).
  reflexivity.
Defined.

Lemma sci_fi_wins_ties_witness :
  exists l,
    dict_get mock_movies (lit "sci-fi") = Some l /\
    fetch_str ascii_lower (lit "Comedy, action or sci-fi?") =
    json_dumps (PyList l).
Proof.
  exact (proj2 (sci_fi_wins_ties ascii_lower (lit "Comedy, action or sci-fi?")
                  eq_refl)).
Defined.

(** * Further properties of the loop *)

Definition is_tool (r : response) : bool := str_eqb (step_of r) (lit "TOOL").

(** What a reply adds to the transcript: the assistant message and, for a
    TOOL step whose dispatch returns, the observation. *)
Definition said (lower : pystr -> pystr) (r : response) : list message :=
  assistant r ::
  (if is_tool r
   then match dispatch lower (MyOutputFormat.tool (parsed r))
                             (MyOutputFormat.input (parsed r)) with
        | Return out =>
            [observation (MyOutputFormat.tool (parsed r))
                         (MyOutputFormat.input (parsed r)) out]
        | Raise _ => []
        end
   else []).

(** What a reply adds to the displayed history. *)
Definition shown (r : response) : list (pystr * pystr) :=
  if str_eqb (step_of r) (lit "START") then [shown_start r]
  else if str_eqb (step_of r) (lit "PLAN") then [shown_plan r]
  else if str_eqb (step_of r) (lit "TOOL") then [shown_tool r]
  else if str_eqb (step_of r) (lit "OUTPUT") then [shown_output r]
  else [].

(** The transcripts of successive calls of the model, from the transcript
    of the first call and the replies. *)
Fixpoint asked_with (lower : pystr -> pystr) (base : list message)
    (rs : list response) : list (list message) :=
  match rs with
  | [] => []
  | r :: rs' => base :: asked_with lower (base ++ said lower r) rs'
  end.

Definition final (r : run) : session_state :=
  match r with
  | Done st | Failed _ st | Running st => st
  end.

Section Pass.
Variable lower : pystr -> pystr.
Variables (st : session_state) (r : response).

Lemma iteration_said :
  messages (state_of (snd (iteration lower st r))) = messages st ++ said lower r.
Proof. apply iteration_messages. Qed.

Lemma iteration_shown :
  chat_history (state_of (snd (iteration lower st r))) = chat_history st ++ shown r.
Proof.
  unfold shown.
  destruct (step_cases r) as [H|[H|[H|[H|(H1 & H2 & H3 & H4)]]]].
  - rewrite (iteration_start lower st r H), H; reflexivity.
  - rewrite (iteration_plan lower st r H), H; reflexivity.
  - rewrite (iteration_tool lower st r H), H; cbv zeta.
    destruct (dispatch lower _ _); reflexivity.
  - rewrite (iteration_output lower st r H), H; reflexivity.
  - rewrite (iteration_other lower st r H1 H2 H3 H4).
    apply str_eqb_neq in H1, H2, H3, H4. rewrite H1, H2, H3, H4.
    cbn; rewrite app_nil_r; reflexivity.
Qed.

End Pass.

Section Folds.
Variable lower : pystr -> pystr.
Variable model : list message -> response.

(** The shape of a run with fuel left, in terms of its first pass. *)
Lemma agent_loop_step (n : nat) (st : session_state) :
  let r := model (messages st) in
  let o := snd (iteration lower st r) in
  let evs := fst (iteration lower st r) in
  agent_loop lower model (S n) st =
  match o with
  | Continue st' =>
      (ModelCall (messages st) :: evs ++ fst (agent_loop lower model n st'),
       snd (agent_loop lower model n st'))
  | Break st' => (ModelCall (messages st) :: evs, Done st')
  | Abort e st' => (ModelCall (messages st) :: evs, Failed e st')
  end.
Proof.
  cbn [agent_loop].
  destruct (iteration lower st (model (messages st))) as [evs [st'|st'|e st']];
    cbn [fst snd]; [|reflexivity..].
  destruct (agent_loop lower model n st'); reflexivity.
Qed.

(** The replies of a run with fuel left: the first reply, then those of the
    rest of the run if the pass ended in a continue. *)
Lemma replies_step (n : nat) (st : session_state) :
  let r := model (messages st) in
  replies model (fst (agent_loop lower model (S n) st)) =
  r :: match snd (iteration lower st r) with
       | Continue st' => replies model (fst (agent_loop lower model n st'))
       | _ => []
       end.
Proof.
  cbv zeta. rewrite agent_loop_step; cbv zeta.
  pose proof (iteration_asks_nothing lower st (model (messages st))) as Hq.
  destruct (snd (iteration lower st (model (messages st)))); cbn [fst].
  - apply replies_cons; exact Hq.
  - rewrite <- (app_nil_r (fst _)). rewrite (replies_cons model st _ [] Hq).
    reflexivity.
  - rewrite <- (app_nil_r (fst _)). rewrite (replies_cons model st _ [] Hq).
    reflexivity.
Qed.
End Folds.

Section AskedWith.
Variable lower : pystr -> pystr.

Lemma asked_with_nth (rs : list response) :
  forall (base : list message) (i : nat) (t : list message),
    nth_error (asked_with lower base rs) i = Some t ->
    t = base ++ List.flat_map (said lower) (firstn i rs).
Proof.
  induction rs as [|r rs IH]; intros base i t; [destruct i; discriminate|].
  destruct i as [|i]; cbn [asked_with nth_error firstn List.flat_map].
  - intros H; inversion H; rewrite app_nil_r; reflexivity.
  - intros H. rewrite (IH _ _ _ H), <- app_assoc. reflexivity.
Qed.

Lemma asked_with_longer (rs : list response) :
  forall (base t : list message),
    In t (asked_with lower base rs) -> (List.length base <= List.length t)%nat.
Proof.
  induction rs as [|r rs IH]; intros base t; [intros []|].
  cbn [asked_with]. intros [<-|H]; [apply Nat.le_refl|].
  apply IH in H. rewrite length_app in H. cbn [said List.length] in H.
  apply Nat.le_trans with (2 := H). apply Nat.le_add_r.
Qed.

Lemma asked_with_NoDup (rs : list response) :
  forall base : list message, NoDup (asked_with lower base rs).
Proof.
  induction rs as [|r rs IH]; intros base; cbn [asked_with]; constructor;
    [|apply IH].
  intros H. apply asked_with_longer in H.
  rewrite length_app in H. cbn [said List.length] in H.
  rewrite Nat.add_succ_r in H.
  apply (Nat.nle_succ_diag_l (List.length base)).
  apply Nat.le_trans with (2 := H). apply le_n_S, Nat.le_add_r.
Qed.
End AskedWith.

(** What a run leaves in the session, read off its replies. *)
Lemma agent_loop_adds
    (lower : pystr -> pystr) (model : list message -> response)
    (n : nat) (s : session_state) :
  messages (final (snd (agent_loop lower model n s))) =
    messages s ++
    List.flat_map (said lower) (replies model (fst (agent_loop lower model n s))) /\
  chat_history (final (snd (agent_loop lower model n s))) =
    chat_history s ++
    List.flat_map shown (replies model (fst (agent_loop lower model n s))).
Proof.
  revert s; induction n as [|n IH]; intros s.
  - cbn; rewrite !app_nil_r; split; reflexivity.
  - rewrite replies_step; cbv zeta. rewrite agent_loop_step; cbv zeta.
    pose proof (iteration_said lower s (model (messages s))) as Hs.
    pose proof (iteration_shown lower s (model (messages s))) as Hh.
    destruct (snd (iteration lower s (model (messages s)))) as [s'|s'|e s'];
      cbn [state_of] in Hs, Hh; cbn [fst snd final List.flat_map].
    + destruct (IH s') as [IHm IHh].
      rewrite IHm, IHh, Hs, Hh, <- !app_assoc. split; reflexivity.
    + rewrite Hs, Hh, !app_nil_r. split; reflexivity.
    + rewrite Hs, Hh, !app_nil_r. split; reflexivity.
Qed.

(** A run that is over through the [break] ends on an OUTPUT reply, whose
    assistant message and recommendation are the last things added. *)
Lemma agent_loop_done_adds
    (lower : pystr -> pystr) (model : list message -> response)
    (fuel : nat) (st st' : session_state) :
  snd (agent_loop lower model fuel st) = Done st' ->
  exists before last,
    replies model (fst (agent_loop lower model fuel st)) = before ++ [last] /\
    step_of last = lit "OUTPUT" /\
    messages st' =
      (messages st ++ List.flat_map (said lower) before) ++ [assistant last] /\
    chat_history st' =
      (chat_history st ++ List.flat_map shown before) ++ [shown_output last].
Proof.
  intros HD.
  destruct (agent_loop_adds lower model fuel st) as [Fm Fh].
  pose proof (agent_loop_replies lower model fuel st) as R. cbv zeta in R.
  rewrite HD in R, Fm, Fh. cbn [final] in Fm, Fh.
  destruct R as (before & last & E & _ & Hl).
  exists before, last. split; [exact E|]. split; [exact Hl|].
  rewrite Fm, Fh, E, !flat_map_app. cbn [List.flat_map].
  unfold said at 2, shown at 2, is_tool. rewrite Hl.
  cbn. rewrite !app_assoc. split; reflexivity.
Qed.

(** X4. A run adds to the session exactly what its replies add, in order:
    to the transcript the assistant message of each reply, followed by the
    observation when the reply is a TOOL step whose dispatch returns; to the
    history one entry for each START, PLAN, TOOL and OUTPUT reply and none
    for any other.  Nothing that was there is changed or dropped.  When the
    run is over through the [break], the last message is the assistant
    message of an OUTPUT reply and the last history entry is the
    recommendation made of its content. *)
Theorem run_adds_what_replies_add
    (lower : pystr -> pystr) (model : list message -> response)
    (fuel : nat) (st : session_state) :
  let rs := replies model (fst (agent_loop lower model fuel st)) in
  let st' := final (snd (agent_loop lower model fuel st)) in
  messages st' = messages st ++ List.flat_map (said lower) rs /\
  chat_history st' = chat_history st ++ List.flat_map shown rs /\
  (snd (agent_loop lower model fuel st) = Done st' ->
   exists before last,
     rs = before ++ [last] /\ step_of last = lit "OUTPUT" /\
     messages st' =
       (messages st ++ List.flat_map (said lower) before) ++ [assistant last] /\
     chat_history st' =
       (chat_history st ++ List.flat_map shown before) ++ [shown_output last]).
Proof.
  cbv zeta.
  destruct (agent_loop_adds lower model fuel st) as [Fm Fh].
  split; [exact Fm|]. split; [exact Fh|].
  intros HD. rewrite HD; cbn [final].
  exact (agent_loop_done_adds lower model fuel st _ HD).
Qed.

(** X5. Every call of the model in a run is made with the transcript of the
    start of the run extended by all that the replies before it added, so
    each call sees every earlier reply and every tool result so far.  The
    transcripts of the calls of one run are pairwise different. *)
Theorem model_calls_see_everything_so_far
    (lower : pystr -> pystr) (model : list message -> response)
    (fuel : nat) (st : session_state) :
  let evs := fst (agent_loop lower model fuel st) in
  let rs := replies model evs in
  List.length (transcripts evs) = List.length rs /\
  (forall i t,
     nth_error (transcripts evs) i = Some t ->
     t = messages st ++ List.flat_map (said lower) (firstn i rs)) /\
  NoDup (transcripts evs).
Proof.
  cbv zeta.
  assert (A : forall n s,
    transcripts (fst (agent_loop lower model n s)) =
    asked_with lower (messages s)
      (replies model (fst (agent_loop lower model n s)))).
  { induction n as [|n IH]; intros s; [reflexivity|].
    rewrite replies_step; cbv zeta. rewrite agent_loop_step; cbv zeta.
    pose proof (iteration_said lower s (model (messages s))) as Hs.
    pose proof (iteration_asks_nothing lower s (model (messages s))) as Hq.
    destruct (snd (iteration lower s (model (messages s)))) as [s'|s'|e s'];
      cbn [state_of] in Hs; cbn [fst transcripts asked_with].
    - rewrite transcripts_app, Hq, IH, Hs. reflexivity.
    - rewrite Hq; reflexivity.
    - rewrite Hq; reflexivity. }
  split; [unfold replies; rewrite length_map; reflexivity|].
  split.
  - intros i t H. rewrite A in H. exact (asked_with_nth lower _ _ _ _ H).
  - rewrite A. apply asked_with_NoDup.
Qed.

(** * The session across script runs, and the display *)

(** ** The display of the history *)

(** The right-aligned bubble of a user entry: the f-string of the source,
    line by line. *)
Definition user_bubble (msg : pystr) : pystr :=
  [10] ++
  lit "            <div style=" ++ [34] ++ lit "display: flex; justify-content: flex-end; margin: 5px;" ++ [34] ++ lit ">" ++ [10] ++
  lit "                <div style=" ++ [34] ++ lit "background-color: #00897B; color: #FFFFFF; padding: 10px 15px; border-radius: 12px; max-width: 70%; text-align: left; box-shadow: 2px 2px 5px rgba(0,0,0,0.2);" ++ [34] ++ lit ">" ++ [10] ++
  lit "                    <b>" ++ [128100] ++ lit " User Preference:</b> " ++ msg ++ [10] ++
  lit "                </div>" ++ [10] ++
  lit "            </div>" ++ [10] ++
  lit "            ".

(** The left-aligned bubble of any other entry. *)
Definition bot_bubble (color msg : pystr) : pystr :=
  [10] ++
  lit "            <div style=" ++ [34] ++ lit "display: flex; justify-content: flex-start; margin: 5px;" ++ [34] ++ lit ">" ++ [10] ++
  lit "                <div style=" ++ [34] ++ lit "background-color: " ++ color ++ lit "; color: #F0F0F0; padding: 10px 15px; border-radius: 12px; max-width: 70%; text-align: left; box-shadow: 2px 2px 5px rgba(0,0,0,0.2);" ++ [34] ++ lit ">" ++ [10] ++
  lit "                    " ++ msg ++ [10] ++
  lit "                </div>" ++ [10] ++
  lit "            </div>" ++ [10] ++
  lit "            ".

Definition marker_start : pystr := [128293] ++ lit " MRE Initialized:".
Definition marker_plan : pystr := [129504] ++ lit " Planning:".
Definition marker_tool : pystr := [128736] ++ [65039] ++ lit " Fetching data using keyword:".
Definition marker_output : pystr := [129302] ++ lit " **MRE Recommendation:**".

(** The [if ... in msg: ... elif ...] chain that picks the colour of a bot
    bubble. *)
Definition color_of (msg : pystr) : pystr :=
  if str_in marker_start msg then lit "#1E88E5"
  else if str_in marker_plan msg then lit "#07FF83"
  else if str_in marker_tool msg then lit "#7CB342"
  else if str_in marker_output msg then lit "#00A3EE"
  else lit "#2B2B2B".

(** The body of [for role, msg in st.session_state.chat_history]: the HTML
    handed to [st.markdown] for one entry. *)
Definition bubble (entry : pystr * pystr) : pystr :=
  let (role, msg) := entry in
  if str_eqb role (lit "user") then user_bubble msg
  else bot_bubble (color_of msg) msg.

(** The HTML blocks of the page, one [st.markdown] call per entry, in
    order. *)
Definition display (chat_history : list (pystr * pystr)) : list pystr :=
  List.map bubble chat_history.

(** A needle whose first code point does not occur in a prefix cannot start
    inside that prefix. *)
Lemma str_in_skip (h : N) (t p s : pystr) :
  existsb (N.eqb h) p = false ->
  str_in (h :: t) (p ++ s) = str_in (h :: t) s.
Proof.
  induction p as [|a p IH]; [reflexivity|].
  cbn [existsb]. intros H. apply orb_false_iff in H. destruct H as [Ha Hp].
  cbn [app str_in startswith]. rewrite Ha, (IH Hp). reflexivity.
Qed.

Lemma str_in_starts (needle s : pystr) : str_in needle (needle ++ s) = true.
Proof. exact (str_in_middle [] needle s). Qed.

Lemma str_in_refl (s : pystr) : str_in s s = true.
Proof.
  pose proof (str_in_middle [] s []) as H. cbn [app] in H.
  rewrite app_nil_r in H. exact H.
Qed.

Ltac find_inside :=
  repeat first [ exact (str_in_middle [] _ _) | exact (str_in_refl _)
               | apply str_in_app_r ].

Lemma bubble_holds_msg (role msg : pystr) : str_in msg (bubble (role, msg)) = true.
Proof.
  unfold bubble. destruct (str_eqb role (lit "user"));
    [unfold user_bubble | unfold bot_bubble]; find_inside.
Qed.

(** X7. The colour of a bot bubble is picked by the first marker found
    anywhere in the entry, in the order start, plan, tool, output.  So an
    entry made by a START step is always blue, while an entry made by a
    PLAN, TOOL or OUTPUT step gets the colour of its own kind only if the
    text that the model supplied contains none of the markers tested
    before; if it does, the entry is painted as that earlier kind. *)
Theorem colors_follow_first_marker (r : response) :
  let content := fmt (MyOutputFormat.content (parsed r)) in
  let input := fmt (MyOutputFormat.input (parsed r)) in
  color_of (snd (shown_start r)) = lit "#1E88E5" /\
  color_of (snd (shown_plan r)) =
    (if str_in marker_start content then lit "#1E88E5" else lit "#07FF83") /\
  color_of (snd (shown_tool r)) =
    (if str_in marker_start input then lit "#1E88E5"
     else if str_in marker_plan input then lit "#07FF83"
     else lit "#7CB342") /\
  color_of (snd (shown_output r)) =
    (if str_in marker_start content then lit "#1E88E5"
     else if str_in marker_plan content then lit "#07FF83"
     else if str_in marker_tool content then lit "#7CB342"
     else lit "#00A3EE").
Proof.
  intros content input.
  unfold color_of, shown_start, shown_plan, shown_tool, shown_output; cbn [snd].
  fold content input.
  split; [|split; [|split]].
  - replace (str_in marker_start ([128293] ++ lit " MRE Initialized: " ++ content))
      with true; [reflexivity|].
    symmetry. exact (str_in_starts marker_start (lit " " ++ content)).
  - change marker_start with (128293 :: lit " MRE Initialized:").
    rewrite (str_in_skip 128293 _ [129504]) by reflexivity.
    rewrite (str_in_skip 128293 _ (lit " Planning: ")) by reflexivity.
    destruct (str_in (128293 :: lit " MRE Initialized:") content); [reflexivity|].
    replace (str_in marker_plan ([129504] ++ lit " Planning: " ++ content))
      with true; [reflexivity|].
    symmetry. exact (str_in_starts marker_plan (lit " " ++ content)).
  - change marker_start with (128293 :: lit " MRE Initialized:").
    change marker_plan with (129504 :: lit " Planning:").
    rewrite (str_in_skip 128293 _ [128736; 65039]) by reflexivity.
    rewrite (str_in_skip 128293 _ (lit " Fetching data using keyword: "))
      by reflexivity.
    rewrite (str_in_skip 129504 _ [128736; 65039]) by reflexivity.
    rewrite (str_in_skip 129504 _ (lit " Fetching data using keyword: "))
      by reflexivity.
    destruct (str_in (128293 :: lit " MRE Initialized:") input); [reflexivity|].
    destruct (str_in (129504 :: lit " Planning:") input); [reflexivity|].
    replace (str_in marker_tool
               ([128736; 65039] ++ lit " Fetching data using keyword: " ++ input))
      with true; [reflexivity|].
    symmetry. exact (str_in_starts marker_tool (lit " " ++ input)).
  - change marker_start with (128293 :: lit " MRE Initialized:").
    change marker_plan with (129504 :: lit " Planning:").
    change marker_tool with (128736 :: 65039 :: lit " Fetching data using keyword:").
    rewrite (str_in_skip 128293 _ [129302]) by reflexivity.
    rewrite (str_in_skip 128293 _ (lit " **MRE Recommendation:** ")) by reflexivity.
    rewrite (str_in_skip 129504 _ [129302]) by reflexivity.
    rewrite (str_in_skip 129504 _ (lit " **MRE Recommendation:** ")) by reflexivity.
    rewrite (str_in_skip 128736 _ [129302]) by reflexivity.
    rewrite (str_in_skip 128736 _ (lit " **MRE Recommendation:** ")) by reflexivity.
    destruct (str_in (128293 :: lit " MRE Initialized:") content); [reflexivity|].
    destruct (str_in (129504 :: lit " Planning:") content); [reflexivity|].
    destruct (str_in (128736 :: 65039 :: lit " Fetching data using keyword:") content);
      [reflexivity|].
    replace (str_in marker_output
               ([129302] ++ lit " **MRE Recommendation:** " ++ content))
      with true; [reflexivity|].
    symmetry. exact (str_in_starts marker_output (lit " " ++ content)).
Qed.

(** X8. Nothing is escaped on the way to the page: whatever text an entry
    of the history contains is contained, as it is, in the HTML of its
    bubble.  In particular the query of the user, the content of a START,
    PLAN or OUTPUT step and the input of a TOOL step reach the HTML
    unchanged. *)
Theorem bubble_embeds_text_unescaped (role msg text : pystr) (r : response) :
  (str_in text msg = true -> str_in text (bubble (role, msg)) = true) /\
  str_in msg (bubble (lit "user", msg)) = true /\
  str_in (fmt (MyOutputFormat.content (parsed r))) (bubble (shown_start r)) = true /\
  str_in (fmt (MyOutputFormat.content (parsed r))) (bubble (shown_plan r)) = true /\
  str_in (fmt (MyOutputFormat.input (parsed r))) (bubble (shown_tool r)) = true /\
  str_in (fmt (MyOutputFormat.content (parsed r))) (bubble (shown_output r)) = true.
Proof.
  split; [intros H; exact (str_in_trans _ _ _ H (bubble_holds_msg role msg))|].
  split; [apply bubble_holds_msg|].
  repeat split;
    (eapply str_in_trans; [|apply bubble_holds_msg]); cbn [snd]; find_inside.
Qed.

(** ** Script runs *)

(** [st.session_state] as the dictionary it is: either key may be missing,
    as both are when the session is new. *)
Record stored : Type := {
  stored_messages : option (list message);
  stored_history : option (list (pystr * pystr))
}.

Definition new_session : stored :=
  {| stored_messages := None; stored_history := None |}.

(** The two [if ... not in st.session_state] blocks. *)
Definition initialise (s : stored) : session_state :=
  {| messages := match stored_messages s with
                 | Some m => m
                 | None => [system_message]
                 end;
     chat_history := match stored_history s with
                     | Some h => h
                     | None => []
                     end |}.

Definition keep (st : session_state) : stored :=
  {| stored_messages := Some (messages st);
     stored_history := Some (chat_history st) |}.

(** The script from the initialisation on, for a given value of the chat
    input: what the session holds afterwards and the bubbles on the page.
    The display is reached only when the loop was left through the
    [break], or was not entered. *)
Definition rest_of_script (lower : pystr -> pystr)
    (model : list message -> response) (fuel : nat)
    (user_query : option pystr) (s : stored) : stored * list pystr :=
  let st := initialise s in
  match snd (user_turn lower model fuel st user_query) with
  | Done st' => (keep st', display (chat_history st'))
  | Failed _ st' => (keep st', [])
  | Running st' => (keep st', [])
  end.

(** One run of the script.  When the button was clicked both keys are
    assigned and [st.rerun()] starts the script again from the top, with
    the button not clicked and no chat input. *)
Definition script (lower : pystr -> pystr)
    (model : list message -> response) (fuel : nat)
    (clicked : bool) (user_query : option pystr) (s : stored)
  : stored * list pystr :=
  if clicked
  then rest_of_script lower model fuel None
         {| stored_messages := Some [system_message];
            stored_history := Some [] |}
  else rest_of_script lower model fuel user_query s.

(** What happens in one run: the button, the chat input, and the model that
    answers during that run. *)
Record happening : Type := {
  clicked : bool;
  user_query : option pystr;
  model_then : list message -> response;
  fuel_then : nat
}.

(** A session: the script run once per happening, on the state the run
    before left, with the page of the last run. *)
Fixpoint session (lower : pystr -> pystr) (hs : list happening)
    (s : stored) (page : list pystr) : stored * list pystr :=
  match hs with
  | [] => (s, page)
  | h :: hs' =>
      let (s', page') :=
        script lower (model_then h) (fuel_then h) (clicked h) (user_query h) s in
      session lower hs' s' page'
  end.

(** The shape every stored session has once the script has run: the system
    message first and nowhere else, and a history of user and assistant
    entries. *)
Definition well_kept (s : stored) : Prop :=
  exists rest hist,
    stored_messages s = Some (system_message :: rest) /\
    Forall (fun m => role m <> lit "system") rest /\
    stored_history s = Some hist /\
    Forall (fun e => fst e = lit "user" \/ fst e = lit "assistant") hist.

Lemma said_roles (lower : pystr -> pystr) (rs : list response) :
  Forall (fun m => role m <> lit "system") (List.flat_map (said lower) rs).
Proof.
  induction rs as [|r rs IH]; [constructor|].
  cbn [List.flat_map]. apply Forall_app; split; [|exact IH].
  unfold said. constructor; [cbn; discriminate|].
  destruct (is_tool r); [|constructor].
  destruct (dispatch lower _ _); repeat constructor. cbn; discriminate.
Qed.

Lemma shown_roles (rs : list response) :
  Forall (fun e : pystr * pystr => fst e = lit "user" \/ fst e = lit "assistant")
    (List.flat_map shown rs).
Proof.
  induction rs as [|r rs IH]; [constructor|].
  cbn [List.flat_map]. apply Forall_app; split; [|exact IH].
  unfold shown.
  repeat match goal with
         | |- context [if ?b then _ else _] => destruct b
         end; repeat constructor; right; reflexivity.
Qed.

Section Kept.
Variable lower : pystr -> pystr.

Lemma user_turn_well_kept (model : list message -> response) (fuel : nat)
    (q : option pystr) (st : session_state) :
  well_kept (keep st) ->
  well_kept (keep (final (snd (user_turn lower model fuel st q)))).
Proof.
  intros W. unfold user_turn.
  destruct q as [[|c q]|]; try exact W.
  destruct W as (rest & hist & Hm & Hr & Hh & Hu). cbn in Hm, Hh.
  inversion Hm as [Em]; inversion Hh as [Eh]; clear Hm Hh.
  match goal with
  | |- context [agent_loop lower model fuel ?s] =>
      destruct (agent_loop_adds lower model fuel s) as [Fm Fh]
  end.
  cbn [append_history append_message messages chat_history] in Fm, Fh.
  rewrite Em, Eh in *.
  eexists; eexists. cbn [keep stored_messages stored_history].
  rewrite Fm, Fh. cbn [app]. split; [reflexivity|].
  split; [|split; [reflexivity|]].
  - rewrite <- app_assoc. apply Forall_app; split; [exact Hr|].
    apply Forall_app; split; [repeat constructor; cbn; discriminate|].
    apply said_roles.
  - rewrite <- app_assoc. apply Forall_app; split; [exact Hu|].
    apply Forall_app; split; [repeat constructor; left; reflexivity|].
    apply shown_roles.
Qed.

Lemma rest_of_script_state (model : list message -> response) (fuel : nat)
    (q : option pystr) (s : stored) :
  fst (rest_of_script lower model fuel q s) =
  keep (final (snd (user_turn lower model fuel (initialise s) q))).
Proof.
  unfold rest_of_script.
  destruct (snd (user_turn lower model fuel (initialise s) q)); reflexivity.
Qed.

Lemma initialise_well_kept (s : stored) :
  s = new_session \/ well_kept s -> well_kept (keep (initialise s)).
Proof.
  intros [->|(rest & hist & Hm & Hr & Hh & Hu)].
  - exists [], []. repeat split; constructor.
  - exists rest, hist. unfold keep, initialise; rewrite Hm, Hh.
    repeat split; assumption.
Qed.

Lemma script_well_kept (model : list message -> response) (fuel : nat)
    (c : bool) (q : option pystr) (s : stored) :
  s = new_session \/ well_kept s ->
  well_kept (fst (script lower model fuel c q s)).
Proof.
  intros H. unfold script. destruct c; rewrite rest_of_script_state.
  - exists [], []. repeat split; constructor.
  - apply user_turn_well_kept, initialise_well_kept, H.
Qed.
End Kept.

Lemma session_app (lower : pystr -> pystr) (a b : list happening) :
  forall (s : stored) (page : list pystr),
    session lower (a ++ b) s page =
    session lower b (fst (session lower a s page)) (snd (session lower a s page)).
Proof.
  induction a as [|h a IH]; intros s page; [reflexivity|].
  cbn [app session].
  destruct (script lower (model_then h) (fuel_then h) (clicked h) (user_query h) s).
  apply IH.
Qed.

(** X9. Throughout a session that starts new, after every run of the
    script: both keys are stored, the transcript starts with the system
    message and holds no other message of role system, and every entry of
    the history has the role user or assistant.  This holds whatever is
    clicked or typed, whatever the model answers, and also when a run ends
    in an exception. *)
Theorem session_keeps_system_message_first
    (lower : pystr -> pystr) (h : happening) (hs : list happening) :
  exists rest hist,
    fst (session lower (h :: hs) new_session []) =
      {| stored_messages := Some (system_message :: rest);
         stored_history := Some hist |} /\
    Forall (fun m => role m <> lit "system") rest /\
    Forall (fun e => fst e = lit "user" \/ fst e = lit "assistant") hist.
Proof.
  assert (G : forall hs s page,
            s = new_session \/ well_kept s ->
            hs <> [] -> well_kept (fst (session lower hs s page))).
  { clear h hs. induction hs as [|h hs IH]; intros s page Hs Hne;
      [contradiction|].
    cbn [session].
    pose proof (script_well_kept lower (model_then h) (fuel_then h)
                  (clicked h) (user_query h) s Hs) as W.
    destruct (script lower (model_then h) (fuel_then h) (clicked h)
                (user_query h) s) as [s' page']. cbn [fst] in W.
    destruct hs as [|h' hs]; [exact W|].
    apply IH; [right; exact W | discriminate]. }
  destruct (G (h :: hs) new_session [] (or_introl eq_refl))
    as (rest & hist & Hm & Hr & Hh & Hu); [discriminate|].
  exists rest, hist. split; [|split; assumption].
  destruct (fst (session lower (h :: hs) new_session [])) as [m hi].
  cbn in Hm, Hh. rewrite Hm, Hh. reflexivity.
Qed.

(** X10. A click on the clear button forgets everything: the state and the
    page after the click, and after any runs that follow it, are what they
    would be had the session started with the click; and when runs follow,
    what they would be in a new session without the click. *)
Theorem clear_forgets_the_past
    (lower : pystr -> pystr) (h : happening) (before after : list happening)
    (s : stored) (page : list pystr) :
  clicked h = true ->
  session lower (before ++ h :: after) s page =
    session lower (h :: after) new_session [] /\
  (after <> [] ->
   session lower (before ++ h :: after) s page =
     session lower after new_session []).
Proof.
  intros Hc.
  assert (E : forall s0 page0,
            session lower (h :: after) s0 page0 =
            session lower (h :: after) new_session []).
  { intros s0 page0. cbn [session]. unfold script. rewrite Hc. reflexivity. }
  rewrite session_app, E. split; [reflexivity|].
  intros Hne. destruct after as [|h' after]; [contradiction|].
  cbn [session]. unfold script at 1 3. rewrite Hc.
  cbn [rest_of_script user_turn snd initialise keep stored_messages
       stored_history messages chat_history display List.map].
  unfold script. destruct (clicked h'); reflexivity.
Qed.

Lemma clear_forgets_the_past_witness :
  let ask := {| clicked := false;
                user_query := Some (lit "something funny");
                model_then := scripted; fuel_then := 5 |} in
  let click := {| clicked := true; user_query := None;
                  model_then := scripted; fuel_then := 5 |} in
  session ascii_lower ([ask; ask] ++ click :: [ask]) new_session [] =
  session ascii_lower (click :: [ask]) new_session [].
Proof.
  intros ask click.
  exact (proj1 (clear_forgets_the_past ascii_lower click [ask; ask] [ask]
                  new_session [] eq_refl)).
Defined.



(** * The text that [json.dumps] writes *)

(** Induction on Python values, through the lists and dictionaries. *)
Section PyvalInd.
Variable P : pyval -> Prop.
Hypothesis HNone : P PyNone.
Hypothesis HStr : forall s, P (PyStr s).
Hypothesis HInt : forall z, P (PyInt z).
Hypothesis HFloat : forall t, P (PyFloat t).
Hypothesis HList : forall l, Forall P l -> P (PyList l).
Hypothesis HDict : forall d, Forall (fun kv => P (snd kv)) d -> P (PyDict d).

Fixpoint pyval_nested_ind (v : pyval) : P v :=
  match v with
  | PyNone => HNone
  | PyStr s => HStr s
  | PyInt z => HInt z
  | PyFloat t => HFloat t
  | PyList l =>
      HList l
        ((fix items (l : list pyval) : Forall P l :=
            match l with
            | [] => Forall_nil P
            | x :: l' => Forall_cons x (pyval_nested_ind x) (items l')
            end) l)
  | PyDict d =>
      HDict d
        ((fix items (d : list (pystr * pyval))
            : Forall (fun kv => P (snd kv)) d :=
            match d with
            | [] => Forall_nil _
            | kv :: d' => Forall_cons kv (pyval_nested_ind (snd kv)) (items d')
            end) d)
  end.
End PyvalInd.

(** The printable ASCII characters, space to tilde. *)
Definition printable (c : N) : bool := (32 <=? c) && (c <=? 126).

Lemma hexdigit_printable (d : N) : d < 16 -> printable (hexdigit d) = true.
Proof.
  intros H. unfold printable, hexdigit.
  destruct (d <? 10); apply andb_true_iff; split; apply N.leb_le; lia.
Qed.

Lemma uescape_printable (n : N) : forallb printable (uescape n) = true.
Proof.
  unfold uescape, hex4. cbn [lit List.map list_ascii_of_string app forallb].
  rewrite !hexdigit_printable by (apply N.mod_lt; discriminate).
  reflexivity.
Qed.

Lemma escape_char_printable (c : N) : forallb printable (escape_char c) = true.
Proof.
  unfold escape_char.
  repeat match goal with
         | |- context [if ?b then _ else _] =>
             let E := fresh "E" in destruct b eqn:E; try reflexivity
         end.
  - cbn [forallb]. unfold printable. rewrite E6. reflexivity.
  - apply uescape_printable.
  - rewrite forallb_app, !uescape_printable. reflexivity.
Qed.

Lemma encode_str_printable (s : pystr) : forallb printable (encode_str s) = true.
Proof.
  unfold encode_str. rewrite !forallb_app.
  replace (forallb printable (List.flat_map escape_char s)) with true;
    [reflexivity|].
  symmetry. induction s as [|c s IH]; [reflexivity|].
  cbn [List.flat_map]. rewrite forallb_app, escape_char_printable, IH.
  reflexivity.
Qed.

Lemma digits_printable (u : Decimal.uint) :
  forallb printable (lit (NilEmpty.string_of_uint u)) = true.
Proof. induction u; cbn; auto. Qed.

Lemma repr_nat_printable (n : N) : forallb printable (repr_nat n) = true.
Proof.
  unfold repr_nat, NilZero.string_of_uint.
  destruct (N.to_uint n) eqn:E; try (rewrite <- E at 1; apply digits_printable).
  reflexivity.
Qed.

Lemma join_printable (sep : pystr) (parts : list pystr) :
  forallb printable sep = true ->
  Forall (fun p => forallb printable p = true) parts ->
  forallb printable (join sep parts) = true.
Proof.
  intros Hs H; induction H as [|p parts Hp _ IH]; [reflexivity|].
  destruct parts as [|p' parts]; [exact Hp|].
  change (join sep (p :: p' :: parts)) with (p ++ sep ++ join sep (p' :: parts)).
  rewrite !forallb_app, Hp, Hs, IH. reflexivity.
Qed.

Lemma json_dumps_printable (v : pyval) : forallb printable (json_dumps v) = true.
Proof.
  induction v using pyval_nested_ind.
  - reflexivity.
  - apply encode_str_printable.
  - cbn [json_dumps]. unfold repr_int.
    destruct (z <? 0)%Z; rewrite ?forallb_app, repr_nat_printable; reflexivity.
  - cbn [json_dumps]. unfold repr_float. cbv zeta.
    rewrite !forallb_app, !repr_nat_printable.
    destruct (t <? 0)%Z; reflexivity.
  - cbn [json_dumps]. rewrite !forallb_app, join_printable;
      [reflexivity | reflexivity |].
    apply Forall_map. exact H.
  - cbn [json_dumps]. rewrite !forallb_app, join_printable;
      [reflexivity | reflexivity |].
    apply Forall_map. apply Forall_impl with (2 := H).
    intros [k x] Hx. cbn [snd] in Hx.
    rewrite !forallb_app, encode_str_printable, Hx. reflexivity.
Qed.

(** X12. Whatever is serialised, the text that [json.dumps] writes consists
    of printable ASCII characters only.  So the content of an observation
    is printable ASCII whatever the model put into the tool name and the
    input and whatever the tool returned; the not-found text, which on its
    own is not ASCII, travels in it escaped. *)
Theorem observation_is_printable_ascii
    (tool_name tool_input : option pystr) (tool_response k : pystr) (v : pyval) :
  forallb printable (json_dumps v) = true /\
  forallb printable
    (content (observation tool_name tool_input tool_response)) = true /\
  forallb printable (not_found k) = false /\
  forallb printable
    (content (observation tool_name tool_input (not_found k))) = true.
Proof.
  split; [apply json_dumps_printable|].
  split; [apply json_dumps_printable|].
  split; [reflexivity | apply json_dumps_printable].
Qed.

(** * A TOOL step on a registered tool *)

(** X13. A TOOL step that names either registered name and carries a string
    as input never raises: the tool is called once with that string, and
    the observation appended to the transcript carries what the tool
    returned for it, unchanged, be it the list of a category or the
    not-found text; the pass ends in a continue. *)
Theorem registered_tool_step_hands_over_result
    (lower : pystr -> pystr) (st : session_state) (r : response) (k : pystr) :
  step_of r = lit "TOOL" ->
  registered lower (MyOutputFormat.tool (parsed r)) = true ->
  MyOutputFormat.input (parsed r) = Some k ->
  let tool_name := MyOutputFormat.tool (parsed r) in
  iteration lower st r =
  ([ToolCall tool_name (Some k)],
   Continue
     {| messages :=
          messages st ++
          [assistant r; observation tool_name (Some k) (fetch_str lower k)];
        chat_history := chat_history st ++ [shown_tool r] |}) /\
  (fetch_str lower k = not_found k \/
   exists key l, In (key, l) mock_movies /\
     fetch_str lower k = json_dumps (PyList l)).
Proof.
  intros H Hr Hi tool_name. split.
  - rewrite (iteration_tool lower st r H); cbv zeta. fold tool_name.
    rewrite (dispatch_registered lower _ _ Hr), Hi.
    unfold registered in Hr; fold tool_name in Hr; rewrite Hr.
    cbn [fetch_movie_metadata]. unfold append_message, append_history.
    cbn [messages chat_history]. rewrite <- app_assoc. reflexivity.
  - unfold fetch_str.
    destruct (found lower k) as [[|m ms]|] eqn:F; try (left; reflexivity).
    right. apply found_In, in_map_iff in F. destruct F as ([key l] & E & Hin).
    cbn [snd] in E; subst l. eauto.
Qed.

Lemma registered_tool_step_hands_over_result_witness :
  let r := reply "TOOL" None (Some (lit "get_movie_data")) (Some (lit "horror")) in
  iteration ascii_lower asked r =
  ([ToolCall (Some (lit "get_movie_data")) (Some (lit "horror"))],
   Continue
     {| messages :=
          messages asked ++
          [assistant r;
           observation (Some (lit "get_movie_data")) (Some (lit "horror"))
             (fetch_str ascii_lower (lit "horror"))];
        chat_history := chat_history asked ++ [shown_tool r] |}).
Proof.
  intros r.
  exact (proj1 (registered_tool_step_hands_over_result ascii_lower asked r
                  (lit "horror") eq_refl eq_refl eq_refl)).
Defined.

(** * What the tool returns, by what the keyword matches *)

(** Following the specification's words: the normalised keyword matches a
    category when it is its key, when the key is inside it, or when it is
    inside the key. *)
Definition matches_as_specified (keyword key : pystr) : bool :=
  str_eqb keyword key || str_in key keyword || str_in keyword key.

(** C6. When the normalised keyword is a key of the table or has a key
    inside it, or when the keyword is inside a key both normalised and as it
    was passed, the tool returns the [json.dumps] text of one of the lists
    of the table: a non-empty array, opening with a bracket, whose entries
    each have the keys [title], [genre], [imdb_rating] (a number from 0.0
    to 10.0) and [runtime_mins] (a positive integer).  When no category
    matches the normalised keyword in either direction and the keyword as
    passed is inside no key, it returns the not-found text, which opens
    with a warning sign and so cannot be read as a JSON array.  A keyword
    that is inside a key only once normalised is not spoken of here. *)
Theorem fetch_returns_entries_or_notice (lower : pystr -> pystr) (k : pystr) :
  let keyword := strip (lower k) in
  ((exists key l,
      In (key, l) mock_movies /\
      (keyword = key \/ str_in key keyword = true \/
       (str_in keyword key = true /\ str_in k key = true))) ->
   exists key' m ms,
     In (key', m :: ms) mock_movies /\
     fetch_str lower k = json_dumps (PyList (m :: ms)) /\
     forallb entry_ok (m :: ms) = true /\
     opens_array (fetch_str lower k) = true) /\
  ((forall key l,
      In (key, l) mock_movies ->
      matches_as_specified keyword key = false /\ str_in k key = false) ->
   fetch_str lower k = not_found k /\
   opens_array (fetch_str lower k) = false).
Proof.
  intros keyword. unfold fetch_str. rewrite found_spelled_out. fold keyword.
  split.
  - intros (key & l & Hin & Hm).
    assert (S : exists key' l',
              In (key', l') mock_movies /\
              match dict_get mock_movies keyword with
              | Some l0 => Some l0
              | None => option_map snd
                          (List.find (passes keyword k) mock_movies)
              end = Some l').
    { destruct (dict_get mock_movies keyword) as [l0|] eqn:E.
      - exists keyword, l0. split; [exact (dict_get_In _ _ _ E) | reflexivity].
      - destruct (List.find (passes keyword k) mock_movies) as [[key' l']|] eqn:F.
        + exists key', l'. split; [exact (proj1 (find_some_in _ _ _ F)) | reflexivity].
        + exfalso.
          pose proof (proj1 (find_none_all _ _) F _ Hin) as Hp.
          unfold passes in Hp; cbn [fst] in Hp.
          apply orb_false_iff in Hp. destruct Hp as [H1 H2].
          destruct Hm as [Hm|[Hm|[_ Hm]]].
          * rewrite <- Hm, str_in_refl in H1. discriminate H1.
          * rewrite Hm in H1. discriminate H1.
          * rewrite Hm in H2. discriminate H2. }
    destruct S as (key' & l' & Hin' & ->).
    destruct (mock_movies_lists _ _ Hin') as (m & ms & ->).
    exists key', m, ms. split; [exact Hin'|]. split; [reflexivity|].
    split; [|reflexivity].
    apply (in_map snd) in Hin'.
    exact (proj1 (Forall_forall _ _) mock_movies_entries _ Hin').
  - intros Hno.
    assert (E : dict_get mock_movies keyword = None).
    { destruct (dict_get mock_movies keyword) as [l0|] eqn:E; [|reflexivity].
      destruct (Hno _ _ (dict_get_In _ _ _ E)) as [Hm _].
      unfold matches_as_specified in Hm. rewrite str_eqb_refl in Hm.
      discriminate Hm. }
    assert (F : List.find (passes keyword k) mock_movies = None).
    { apply find_none_all. intros [key l] Hin.
      destruct (Hno _ _ Hin) as [Hm Hr].
      unfold matches_as_specified in Hm.
      apply orb_false_iff in Hm. destruct Hm as [Hm _].
      apply orb_false_iff in Hm. destruct Hm as [_ Hm].
      unfold passes; cbn [fst]. rewrite Hm, Hr. reflexivity. }
    rewrite E, F. split; reflexivity.
Qed.

Lemma fetch_returns_entries_or_notice_witness :
  (exists key' m ms,
     In (key', m :: ms) mock_movies /\
     fetch_str ascii_lower (lit "A Comedy, please") =
       json_dumps (PyList (m :: ms)) /\
     forallb entry_ok (m :: ms) = true /\
     opens_array (fetch_str ascii_lower (lit "A Comedy, please")) = true) /\
  fetch_str ascii_lower (lit "horror") = not_found (lit "horror").
Proof.
  split.
  - apply (proj1 (fetch_returns_entries_or_notice ascii_lower
                    (lit "A Comedy, please"))).
    exists (lit "comedy"). eexists. split.
    + right; right; left; reflexivity.
    + right; left; reflexivity.
  - apply (proj2 (fetch_returns_entries_or_notice ascii_lower (lit "horror"))).
    intros key l [H|[H|[H|[]]]]; inversion H; subst; split; reflexivity.
Defined.
